(** * Bike sharing demand: feature engineering and submission formatting

    A shallow embedding of the two data transformations of
    [bike_sharing_demand_solution.ipynb]:

    - [feature_engineering], the function of the "Feature Engineering" cell;
    - the submission cells ([initial_submission], [log_submission],
      [advanced_submission]), which build a two-column frame from the test
      timestamps and the predictions and clip the counts at zero.

    The notebook manipulates pandas objects.  A [DataFrame] is a mutable
    object holding typed columns; it lives in a [heap] and is named by a
    location, so that [df.copy()] and the in-place column assignments
    [df[c] = ...] keep their meaning.  A column ([Series]) is an immutable
    list of cells of one dtype, indexed by position (the [RangeIndex] that
    [pd.read_csv] produces).

    Numbers.  An [int64] cell is a [Z].  A [float64] cell is [option Q]: the
    rational a finite float denotes, or [None] for [NaN].  Comparisons,
    [clip] and [pd.cut] are exact on floats, so they are exact here too.  The
    rounded float product is a parameter ([fmul]).

    Library functions whose result depends on the pandas version (parsing a
    timestamp string, printing a timestamp) are Section variables. *)

From Stdlib Require Import ZArith QArith Qminmax Ascii String Sorted.
From stdpp Require Import base option gmap strings list pretty.
From Stdlib Require Import Lqa.

Open Scope Z_scope.

(** ** Cells and columns *)

(** A [float64] cell that holds a finite number or [NaN] ([None]).  The two
    infinities are not represented: the columns of the data set are finite
    readings, and no statement below speaks of a frame that holds one. *)
Definition float : Type := option Q.

Definition float_of_int (z : Z) : float := Some (inject_Z z).

(** [datetime64[ns]]: nanoseconds since 1970-01-01T00:00:00. *)
Definition Timestamp : Type := Z.

Inductive Series : Type :=
  | ObjectS (xs : list (option string))   (* dtype object holding str; None is NaN *)
  | DatetimeS (xs : list Timestamp)       (* dtype datetime64[ns], no NaT *)
  | IntS (xs : list Z)                    (* dtype int64 *)
  | BoolS (xs : list bool)                (* dtype bool *)
  | FloatS (xs : list float)              (* dtype float64 *)
  | CategoryS (xs : list (option string)) (* dtype category; None is NaN *).

Definition Series_len (s : Series) : nat :=
  match s with
  | ObjectS xs | CategoryS xs => length xs
  | DatetimeS xs | IntS xs => length xs
  | BoolS xs => length xs
  | FloatS xs => length xs
  end.

(** One cell of a column, tagged with the dtype of its column. *)
Inductive value : Type :=
  | VStr (s : option string)
  | VTime (t : Timestamp)
  | VInt (z : Z)
  | VBool (b : bool)
  | VFloat (x : float)
  | VCat (s : option string).

(** [s.iloc[i]] *)
Definition iloc (s : Series) (i : nat) : option value :=
  match s with
  | ObjectS xs => VStr <$> xs !! i
  | DatetimeS xs => VTime <$> xs !! i
  | IntS xs => VInt <$> xs !! i
  | BoolS xs => VBool <$> xs !! i
  | FloatS xs => VFloat <$> xs !! i
  | CategoryS xs => VCat <$> xs !! i
  end.

(** ** Python exceptions *)

Inductive exn : Type :=
  | KeyError (c : string)
  | AttributeError
  | TypeError
  | ValueError
  | InvalidRef       (* a location that names no object; no Python name does *)
  | Unmodelled       (* pandas behaviour this development does not cover *).

Inductive Result (A : Type) : Type :=
  | Ok (a : A)
  | Raise (e : exn).
Arguments Ok {A} a.
Arguments Raise {A} e.

#[global] Instance Result_ret : MRet Result := @Ok.
#[global] Instance Result_bind : MBind Result := λ A B f r,
  match r with Ok a => f a | Raise e => Raise e end.
#[global] Instance Result_fmap : FMap Result := λ A B f r,
  match r with Ok a => Ok (f a) | Raise e => Raise e end.

(** ** Calendar fields of a timestamp ([Series.dt]) *)

Definition ns_per_hour : Z := 3600000000000.
Definition ns_per_day : Z := 86400000000000.

Definition days_of (t : Timestamp) : Z := t / ns_per_day.

(** [dt.hour] *)
Definition hour_of (t : Timestamp) : Z := (t / ns_per_hour) mod 24.

(** [dt.dayofweek]: Monday is 0, Sunday is 6; day 0 was a Thursday. *)
Definition dayofweek_of (t : Timestamp) : Z := (days_of t + 3) mod 7.

(** Proleptic Gregorian date of a day number, as (year, month, day). *)
Definition civil_from_days (z : Z) : Z * Z * Z :=
  let z := z + 719468 in
  let era := z / 146097 in
  let doe := z - era * 146097 in
  let yoe := (doe - doe / 1460 + doe / 36524 - doe / 146096) / 365 in
  let doy := doe - (365 * yoe + yoe / 4 - yoe / 100) in
  let mp := (5 * doy + 2) / 153 in
  let d := doy - (153 * mp + 2) / 5 + 1 in
  let m := if mp <? 10 then mp + 3 else mp - 9 in
  let y := yoe + era * 400 + (if m <=? 2 then 1 else 0) in
  (y, m, d).

Definition year_of (t : Timestamp) : Z := (civil_from_days (days_of t)).1.1.
Definition month_of (t : Timestamp) : Z := (civil_from_days (days_of t)).1.2.
Definition day_of (t : Timestamp) : Z := (civil_from_days (days_of t)).2.

(** Day number of a civil date (inverse of [civil_from_days]). *)
Definition days_from_civil (y m d : Z) : Z :=
  let y := if m <=? 2 then y - 1 else y in
  let era := y / 400 in
  let yoe := y - era * 400 in
  let doy := (153 * (if 2 <? m then m - 3 else m + 9) + 2) / 5 + d - 1 in
  let doe := yoe * 365 + yoe / 4 - yoe / 100 + doy in
  era * 146097 + doe - 719468.

(** ** The scalar functions of the notebook *)

(** The lambda applied to [df['hour']]. *)
Definition time_of_day (x : Z) : string :=
  if (6 <=? x) && (x <? 12) then "morning"
  else if (12 <=? x) && (x <? 18) then "afternoon"
  else if (18 <=? x) && (x <? 22) then "evening"
  else "night".

(** [bins.searchsorted(x, side='left')] on increasing [bins]: the number of
    edges strictly below [x]. *)
Fixpoint searchsorted_left (bins : list Q) (x : Q) : nat :=
  match bins with
  | [] => O
  | b :: bins' => if Qlt_le_dec b x then S (searchsorted_left bins' x) else O
  end.

(** [pd.cut(x, bins, labels)] on one cell, with the defaults [right=True],
    [include_lowest=False]: the cell gets label [ids - 1], and no label when
    it is [NaN], when [ids == 0] or when [ids == len(bins)]. *)
Definition pd_cut (bins : list Q) (labels : list string) (x : float) : option string :=
  match x with
  | None => None
  | Some q =>
      let ids := searchsorted_left bins q in
      if bool_decide (ids = O) || bool_decide (ids = length bins) then None
      else labels !! (ids - 1)%nat
  end.

Definition temp_bins : list Q := [-20 # 1; 0 # 1; 10 # 1; 20 # 1; 30 # 1; 50 # 1]%Q.
Definition temp_labels : list string := ["very_cold"; "cold"; "mild"; "warm"; "hot"].
Definition humidity_bins : list Q := [0 # 1; 25 # 1; 50 # 1; 75 # 1; 100 # 1]%Q.
Definition humidity_labels : list string := ["low"; "medium"; "high"; "very_high"].
Definition windspeed_bins : list Q := [0 # 1; 10 # 1; 20 # 1; 30 # 1; 100 # 1]%Q.
Definition windspeed_labels : list string := ["low"; "medium"; "high"; "very_high"].

Definition temp_bin : float → option string := pd_cut temp_bins temp_labels.
Definition humidity_bin : float → option string := pd_cut humidity_bins humidity_labels.
Definition windspeed_bin : float → option string := pd_cut windspeed_bins windspeed_labels.

(** The binning policy in the words of the spec, for comparison with
    [pd_cut]: every bin holds its left edge and not its right edge, except
    the last bin, which holds both. *)
Fixpoint cut_right_open (bins : list Q) (labels : list string) (x : Q) : option string :=
  match bins, labels with
  | lo :: ((hi :: rest) as bins'), lab :: labels' =>
      if Qle_bool lo x
         && (negb (Qle_bool hi x) || (bool_decide (rest = []) && Qle_bool x hi))
      then Some lab
      else cut_right_open bins' labels' x
  | _, _ => None
  end.

(** [x.clip(lower)] on one float cell: [NaN] stays, a value at or above
    [lower] stays, anything else becomes [lower]. *)
Definition clip_lower (lower : Q) (x : float) : float :=
  match x with
  | None => None
  | Some q => if Qle_bool lower q then Some q else Some lower
  end.

(** [int64] arithmetic wraps around. *)
Definition wrap64 (z : Z) : Z := (z + 2 ^ 63) mod 2 ^ 64 - 2 ^ 63.

(** ** Data frames in a heap *)

(** A frame: its index is [RangeIndex(nrows)]; the order of the columns is
    not recorded (no property below depends on it). *)
Record DataFrame : Type := mkDataFrame {
  nrows : nat;
  cols : gmap string Series
}.

Abbreviation loc := positive (only parsing).
Abbreviation heap := (gmap positive DataFrame) (only parsing).

(** Every column of a frame shares the frame's index. *)
Definition wf (d : DataFrame) : Prop :=
  map_Forall (λ _ s, Series_len s = nrows d) (cols d).

(** [df[c].iloc[i]] *)
Definition cell (d : DataFrame) (c : string) (i : nat) : option value :=
  s ← cols d !! c; iloc s i.

Definition set_col (c : string) (s : Series) (d : DataFrame) : DataFrame :=
  {| nrows := nrows d; cols := <[c:=s]> (cols d) |}.

(** Computations on the heap that may raise.  The heap survives an
    exception, as Python objects do. *)
Definition M (A : Type) : Type := heap → heap * Result A.

#[global] Instance M_ret : MRet M := λ A a h, (h, Ok a).
#[global] Instance M_bind : MBind M := λ A B f m h,
  match m h with
  | (h', Ok a) => f a h'
  | (h', Raise e) => (h', Raise e)
  end.

Definition lift {A} (r : Result A) : M A := λ h, (h, r).

(** [df.copy()]: a new object with the same columns. *)
Definition copy (df : loc) : M loc := λ h,
  match h !! df with
  | Some d => let l := fresh (dom h) in (<[l:=d]> h, Ok l)
  | None => (h, Raise InvalidRef)
  end.

(** [df[c]] *)
Definition getitem (df : loc) (c : string) : M Series := λ h,
  match h !! df with
  | Some d =>
      match cols d !! c with
      | Some s => (h, Ok s)
      | None => (h, Raise (KeyError c))
      end
  | None => (h, Raise InvalidRef)
  end.

(** [df[c] = s], for a Series [s] that carries the index of [df] (every
    assignment of the notebook does: [s] is computed from columns of [df]). *)
Definition setitem (df : loc) (c : string) (s : Series) : M unit := λ h,
  match h !! df with
  | Some d =>
      if decide (Series_len s = nrows d) then (<[df:=set_col c s d]> h, Ok ())
      else (h, Raise Unmodelled)
  | None => (h, Raise InvalidRef)
  end.

(** [df[c] = e] *)
Definition assign (df : loc) (c : string) (e : M Series) : M unit :=
  s ← e; setitem df c s.

Definition lift1 (f : Series → Result Series) (e : M Series) : M Series :=
  s ← e; lift (f s).

Definition lift2 (f : Series → Series → Result Series) (e1 e2 : M Series) : M Series :=
  s1 ← e1; s2 ← e2; lift (f s1 s2).

(** ** Column operations *)

(** [s.dtype == 'datetime64[ns]'] *)
Definition is_datetime64 (s : Series) : bool :=
  match s with DatetimeS _ => true | _ => false end.

(** [s.dt.<field>] *)
Definition dt_field (f : Timestamp → Z) (s : Series) : Result Series :=
  match s with
  | DatetimeS ts => Ok (IntS (f <$> ts))
  | _ => Raise AttributeError
  end.

(** [s.apply(f)] for a function of an integer that returns a string.  On a
    column without rows [apply] does not call [f]: it returns an empty
    column of the dtype of [s]. *)
Definition apply_int (f : Z → string) (s : Series) : Result Series :=
  match s with
  | IntS [] => Ok (IntS [])
  | IntS xs => Ok (ObjectS ((λ x, Some (f x)) <$> xs))
  | _ => Raise Unmodelled
  end.

(** [s >= k], [s <= k], [s < k] for an integer column. *)
Definition compare_int (test : Z → bool) (s : Series) : Result Series :=
  match s with
  | IntS xs => Ok (BoolS (test <$> xs))
  | _ => Raise Unmodelled
  end.

Definition ge_scalar (k : Z) : Series → Result Series := compare_int (λ x, k <=? x).
Definition le_scalar (k : Z) : Series → Result Series := compare_int (λ x, x <=? k).
Definition lt_scalar (k : Z) : Series → Result Series := compare_int (λ x, x <? k).

(** [a & b] and [a | b] for boolean columns on the same index. *)
Definition bool_op (op : bool → bool → bool) (a b : Series) : Result Series :=
  match a, b with
  | BoolS xs, BoolS ys =>
      if decide (length xs = length ys) then Ok (BoolS (zip_with op xs ys))
      else Raise Unmodelled
  | _, _ => Raise Unmodelled
  end.

Definition series_and : Series → Series → Result Series := bool_op andb.
Definition series_or : Series → Series → Result Series := bool_op orb.

(** [s.astype(int)] *)
Definition astype_int (s : Series) : Result Series :=
  match s with
  | BoolS xs => Ok (IntS ((λ b : bool, if b then 1 else 0) <$> xs))
  | IntS xs => Ok (IntS xs)
  | _ => Raise Unmodelled
  end.

(** [a * b] for numeric columns on the same index; [fmul] is the float
    product of two finite cells.  [NaN] in a factor gives [NaN].  (In
    [float64] an infinite factor times zero is [NaN] as well; [float] has no
    infinite cell, so that case is outside the model.) *)
Definition float_mul (fmul : Q → Q → Q) (a b : float) : float :=
  x ← a; y ← b; Some (fmul x y).

Definition series_mul (fmul : Q → Q → Q) (a b : Series) : Result Series :=
  if decide (Series_len a = Series_len b) then
    match a, b with
    | IntS xs, IntS ys => Ok (IntS (zip_with (λ x y, wrap64 (x * y)) xs ys))
    | FloatS xs, FloatS ys => Ok (FloatS (zip_with (float_mul fmul) xs ys))
    | IntS xs, FloatS ys =>
        Ok (FloatS (zip_with (λ x y, float_mul fmul (float_of_int x) y) xs ys))
    | FloatS xs, IntS ys =>
        Ok (FloatS (zip_with (λ x y, float_mul fmul x (float_of_int y)) xs ys))
    | _, _ => Raise Unmodelled
    end
  else Raise Unmodelled.

(** [pd.cut(s, bins, labels)] *)
Definition cut (bins : list Q) (labels : list string) (s : Series) : Result Series :=
  match s with
  | IntS xs => Ok (CategoryS ((λ x, pd_cut bins labels (float_of_int x)) <$> xs))
  | FloatS xs => Ok (CategoryS (pd_cut bins labels <$> xs))
  | _ => Raise Unmodelled
  end.

(** [s + sep] for a string [sep]; only an object column can be added to a
    string. *)
Definition str_add_scalar (sep : string) (s : Series) : Result Series :=
  match s with
  | ObjectS xs => Ok (ObjectS ((λ x : option string, (λ x', x' +:+ sep) <$> x) <$> xs))
  | _ => Raise TypeError
  end.

(** [a + b] for object columns of strings on the same index. *)
Definition str_add (a b : Series) : Result Series :=
  match a, b with
  | ObjectS xs, ObjectS ys =>
      if decide (length xs = length ys)
      then Ok (ObjectS (zip_with (λ x y : option string, x' ← x; y' ← y; Some (x' +:+ y')) xs ys))
      else Raise Unmodelled
  | _, _ => Raise Unmodelled
  end.

(** [s.clip(lower=k)] *)
Definition clip (k : Z) (s : Series) : Result Series :=
  match s with
  | FloatS xs => Ok (FloatS (clip_lower (inject_Z k) <$> xs))
  | IntS xs => Ok (IntS (Z.max k <$> xs))
  | _ => Raise Unmodelled
  end.

(** [s.reindex(RangeIndex(n))] for [n] at least the length of [s]: the new
    positions hold [NaN]; an integer column becomes a float column. *)
Definition reindex (n : nat) (s : Series) : Result Series :=
  if decide (Series_len s = n) then Ok s
  else
    let pad {A} : list (option A) := replicate (n - Series_len s) None in
    match s with
    | ObjectS xs => Ok (ObjectS (xs ++ pad))
    | FloatS xs => Ok (FloatS (xs ++ pad))
    | IntS xs => Ok (FloatS ((float_of_int <$> xs) ++ pad))
    | CategoryS xs => Ok (CategoryS (xs ++ pad))
    | _ => Raise Unmodelled
    end.

(** [pd.DataFrame({c1: s1, c2: s2})] for two Series: a new frame whose index
    is the union of the two indexes, each column reindexed on it.  Nothing
    is raised when the Series differ in length. *)
Definition DataFrame_of_dict (c1 : string) (s1 : Series) (c2 : string) (s2 : Series)
    : M loc := λ h,
  let n := Nat.max (Series_len s1) (Series_len s2) in
  match reindex n s1, reindex n s2 with
  | Ok a, Ok b =>
      let l := fresh (dom h) in
      (<[l:={| nrows := n; cols := <[c2:=b]> {[c1 := a]} |}]> h, Ok l)
  | Raise e, _ => (h, Raise e)
  | _, Raise e => (h, Raise e)
  end.

(** ** Records

    One row of the input and of the output of [feature_engineering], as the
    spec's data model has them. *)

(** A numeric cell: an [int64] or a [float64]. *)
Inductive num : Type :=
  | NInt (z : Z)
  | NFloat (x : float).

Definition float_of_num (n : num) : float :=
  match n with NInt z => float_of_int z | NFloat x => x end.

Record RawRecord : Type := mkRawRecord {
  r_timestamp : Timestamp;
  r_season : Z;
  r_weather : Z;
  r_temp : num;
  r_humidity : num;
  r_windspeed : num
}.

Record EnrichedRecord : Type := mkEnrichedRecord {
  e_hour : Z;
  e_day : Z;
  e_month : Z;
  e_year : Z;
  e_dayofweek : Z;
  e_time_of_day : option string;
  e_is_rush_hour : Z;
  e_is_weekend : Z;
  e_weather_season : option string;
  e_temp_bin : option string;
  e_humidity_bin : option string;
  e_windspeed_bin : option string;
  e_temp_humidity : num;
  e_temp_windspeed : num
}.

(** ** Timestamps in the layout of the competition files

    [YYYY-MM-DD HH:MM:SS], the layout of the [datetime] column of
    [train.csv] and [test.csv].  These two functions instantiate
    [parse_datetime] and [format_datetime] in the examples; a text that is
    not a date of the calendar in this layout does not parse. *)

Definition digit_of (a : Ascii.ascii) : option Z :=
  let n := Z.of_N (Ascii.N_of_ascii a) - 48 in
  if (0 <=? n) && (n <=? 9) then Some n else None.

Fixpoint number_of (acc : Z) (s : list Ascii.ascii) : option Z :=
  match s with
  | [] => Some acc
  | a :: s' => d ← digit_of a; number_of (10 * acc + d) s'
  end.

Definition iso_parse (s : string) : option Timestamp :=
  match String.list_ascii_of_string s with
  | [y1; y2; y3; y4; c1; m1; m2; c2; d1; d2; c3; h1; h2; c4; n1; n2; c5; s1; s2] =>
      if bool_decide ([c1; c2; c3; c4; c5] = ["-"; "-"; " "; ":"; ":"]%char) then
        y ← number_of 0 [y1; y2; y3; y4];
        m ← number_of 0 [m1; m2];
        d ← number_of 0 [d1; d2];
        hh ← number_of 0 [h1; h2];
        mm ← number_of 0 [n1; n2];
        ss ← number_of 0 [s1; s2];
        if bool_decide (civil_from_days (days_from_civil y m d) = (y, m, d)
                        ∧ hh < 24 ∧ mm < 60 ∧ ss < 60)
        then Some ((days_from_civil y m d * 86400 + hh * 3600 + mm * 60 + ss)
                   * 1000000000)
        else None
      else None
  | _ => None
  end.

Definition pad2 (z : Z) : string :=
  if z <? 10 then "0" +:+ pretty z else pretty z.

Definition iso_format (t : Timestamp) : string :=
  let secs := (t / 1000000000) mod 86400 in
  pretty (year_of t) +:+ "-" +:+ pad2 (month_of t) +:+ "-" +:+ pad2 (day_of t)
  +:+ " " +:+ pad2 (secs / 3600) +:+ ":" +:+ pad2 ((secs / 60) mod 60)
  +:+ ":" +:+ pad2 (secs mod 60).

(** ** Example frames *)

(** The row of the end-to-end scenario of the spec (the first row of
    [train.csv]); [datetime] is text, as [pd.read_csv] leaves it. *)
Definition scenario_frame : DataFrame :=
  {| nrows := 1;
     cols := list_to_map
       [("datetime", ObjectS [Some "2011-01-01 00:00:00"]);
        ("season", IntS [1]); ("holiday", IntS [0]); ("workingday", IntS [0]);
        ("weather", IntS [1]); ("temp", FloatS [Some (984 # 100)%Q]);
        ("atemp", FloatS [Some (144 # 10)%Q]); ("humidity", IntS [81]);
        ("windspeed", FloatS [Some 0%Q]); ("casual", IntS [3]);
        ("registered", IntS [13]); ("count", IntS [16])] |}.

(** Two rows at 07:00, a Friday (2011-01-07) and a Saturday (2011-01-08);
    the second has humidity 0. *)
Definition commute_frame : DataFrame :=
  {| nrows := 2;
     cols := list_to_map
       [("datetime", ObjectS [Some "2011-01-07 07:00:00"; Some "2011-01-08 07:00:00"]);
        ("season", IntS [1; 1]); ("holiday", IntS [0; 0]);
        ("workingday", IntS [1; 0]); ("weather", IntS [2; 1]);
        ("temp", FloatS [Some (10 # 1)%Q; Some (50 # 1)%Q]);
        ("atemp", FloatS [Some (12 # 1)%Q; Some (45 # 1)%Q]);
        ("humidity", FloatS [Some (55 # 1)%Q; Some 0%Q]);
        ("windspeed", FloatS [Some (7 # 1)%Q; Some (30 # 1)%Q])] |}.

(** One row whose [season] is 7 and whose [weather] is 0. *)
Definition out_of_range_frame : DataFrame :=
  {| nrows := 1;
     cols := list_to_map
       [("datetime", ObjectS [Some "2011-01-01 00:00:00"]);
        ("season", IntS [7]); ("holiday", IntS [0]); ("workingday", IntS [0]);
        ("weather", IntS [0]); ("temp", FloatS [Some (984 # 100)%Q]);
        ("atemp", FloatS [Some (144 # 10)%Q]); ("humidity", IntS [81]);
        ("windspeed", FloatS [Some (6 # 1)%Q])] |}.

(** A test frame of three hours from 2011-01-20 00:00:00, its [datetime]
    column converted as the notebook does before the submission cells. *)
Definition test_timestamps : list Timestamp :=
  [1295481600000000000; 1295485200000000000; 1295488800000000000].

Definition test_frame : DataFrame :=
  {| nrows := 3;
     cols := list_to_map
       [("datetime", DatetimeS test_timestamps);
        ("season", IntS [1; 1; 1]); ("holiday", IntS [0; 0; 0]);
        ("workingday", IntS [1; 1; 1]); ("weather", IntS [1; 1; 1]);
        ("temp", FloatS [Some (1066 # 100)%Q; Some (1066 # 100)%Q; Some (1066 # 100)%Q]);
        ("atemp", FloatS [Some (11365 # 1000)%Q; Some (13635 # 1000)%Q; Some (13635 # 1000)%Q]);
        ("humidity", IntS [56; 56; 56]);
        ("windspeed", FloatS [Some (260027 # 10000)%Q; Some 0%Q; Some 0%Q])] |}.

Definition heap_of (d : DataFrame) : gmap positive DataFrame := {[1%positive := d]}.

(** A frame with the columns of [test.csv] and no row. *)
Definition empty_frame : DataFrame :=
  {| nrows := 0;
     cols := list_to_map
       [("datetime", ObjectS []); ("season", IntS []); ("holiday", IntS []);
        ("workingday", IntS []); ("weather", IntS []); ("temp", FloatS []);
        ("atemp", FloatS []); ("humidity", IntS []); ("windspeed", FloatS [])] |}.

(** The scenario row without its [temp] column. *)
Definition no_temp_frame : DataFrame :=
  {| nrows := 1;
     cols := list_to_map
       [("datetime", ObjectS [Some "2011-01-01 00:00:00"]);
        ("season", IntS [1]); ("holiday", IntS [0]); ("workingday", IntS [0]);
        ("weather", IntS [1]); ("atemp", FloatS [Some (144 # 10)%Q]);
        ("humidity", IntS [81]); ("windspeed", FloatS [Some 0%Q])] |}.

(** Two rows, the second dated 30 February. *)
Definition bad_date_frame : DataFrame :=
  {| nrows := 2;
     cols := list_to_map
       [("datetime", ObjectS [Some "2011-01-01 00:00:00"; Some "2011-02-30 00:00:00"]);
        ("season", IntS [1; 1]); ("weather", IntS [1; 2]);
        ("temp", FloatS [Some (984 # 100)%Q; Some (902 # 100)%Q]);
        ("humidity", IntS [81; 80]);
        ("windspeed", FloatS [Some 0%Q; Some 0%Q])] |}.

(** A heap holding [train] (the scenario row) at 1 and [test] at 2. *)
Definition train_test_heap : gmap positive DataFrame :=
  <[2%positive:=test_frame]> {[1%positive := scenario_frame]}.

Section Notebook.

(** [pd.to_datetime] on one string of the column: the timestamp, or [None]
    where pandas raises.  The column is parsed string by string, as pandas
    does on a column written in one layout. *)
Variable parse_datetime : string → option Timestamp.

(** The text of one timestamp, as [astype(str)] prints it. *)
Variable format_datetime : Timestamp → string.

(** The [float64] product of two finite floats, rounded as the machine
    rounds it. *)
Variable fmul : Q → Q → Q.

(** [pd.to_datetime(s)] *)
Definition to_datetime (s : Series) : Result Series :=
  match s with
  | DatetimeS ts => Ok (DatetimeS ts)
  | ObjectS xs =>
      match mapM id xs with
      | Some strs =>
          match mapM parse_datetime strs with
          | Some ts => Ok (DatetimeS ts)
          | None => Raise ValueError
          end
      | None => Raise Unmodelled
      end
  | _ => Raise Unmodelled
  end.

(** [s.astype(str)] *)
Definition astype_str (s : Series) : Result Series :=
  match s with
  | IntS xs => Ok (ObjectS ((λ x, Some (pretty x)) <$> xs))
  | ObjectS xs => Ok (ObjectS ((λ x, Some (default "nan" x)) <$> xs))
  | DatetimeS ts => Ok (ObjectS ((λ t, Some (format_datetime t)) <$> ts))
  | BoolS xs => Ok (ObjectS ((λ b : bool, Some (if b then "True" else "False")) <$> xs))
  | _ => Raise Unmodelled
  end.

(** The function of the feature engineering cell. *)
Definition feature_engineering (df : loc) : M loc :=
  df ← copy df;
  dt ← getitem df "datetime";
  (if is_datetime64 dt then mret ()
   else assign df "datetime" (lift1 to_datetime (getitem df "datetime")));;
  assign df "hour" (lift1 (dt_field hour_of) (getitem df "datetime"));;
  assign df "day" (lift1 (dt_field day_of) (getitem df "datetime"));;
  assign df "month" (lift1 (dt_field month_of) (getitem df "datetime"));;
  assign df "year" (lift1 (dt_field year_of) (getitem df "datetime"));;
  assign df "dayofweek" (lift1 (dt_field dayofweek_of) (getitem df "datetime"));;
  assign df "time_of_day" (lift1 (apply_int time_of_day) (getitem df "hour"));;
  assign df "is_rush_hour"
    (lift1 astype_int
       (lift2 series_and
          (lift2 series_or
             (lift2 series_and
                (lift1 (ge_scalar 7) (getitem df "hour"))
                (lift1 (le_scalar 9) (getitem df "hour")))
             (lift2 series_and
                (lift1 (ge_scalar 16) (getitem df "hour"))
                (lift1 (le_scalar 19) (getitem df "hour"))))
          (lift1 (lt_scalar 5) (getitem df "dayofweek"))));;
  assign df "is_weekend"
    (lift1 astype_int (lift1 (ge_scalar 5) (getitem df "dayofweek")));;
  assign df "weather_season"
    (lift2 str_add
       (lift1 (str_add_scalar "_") (lift1 astype_str (getitem df "weather")))
       (lift1 astype_str (getitem df "season")));;
  assign df "temp_bin" (lift1 (cut temp_bins temp_labels) (getitem df "temp"));;
  assign df "humidity_bin"
    (lift1 (cut humidity_bins humidity_labels) (getitem df "humidity"));;
  assign df "windspeed_bin"
    (lift1 (cut windspeed_bins windspeed_labels) (getitem df "windspeed"));;
  assign df "temp_humidity"
    (lift2 (series_mul fmul) (getitem df "temp") (getitem df "humidity"));;
  assign df "temp_windspeed"
    (lift2 (series_mul fmul) (getitem df "temp") (getitem df "windspeed"));;
  mret df.


(** The three submission cells ([initial_submission], [log_submission],
    [advanced_submission]) are this code; they differ in the predictions
    they are given.  [test] is the frame of the test set. *)
Definition submission_cell (test : loc) (predictions : Series) : M loc :=
  dt ← lift1 astype_str (getitem test "datetime");
  sub ← DataFrame_of_dict "datetime" dt "count" predictions;
  assign sub "count" (lift1 (clip 0) (getitem sub "count"));;
  mret sub.

Definition initial_submission := submission_cell.
Definition log_submission := submission_cell.
Definition advanced_submission := submission_cell.

(** ** Valid input frames and the frame [feature_engineering] builds *)

(** What [pd.to_datetime] makes of a [datetime] column. *)
Definition datetime_values (s : Series) : option (list Timestamp) :=
  match s with
  | DatetimeS ts => Some ts
  | ObjectS xs => strs ← mapM id xs; mapM parse_datetime strs
  | _ => None
  end.

Definition is_numeric (s : Series) : bool :=
  match s with IntS _ | FloatS _ => true | _ => false end.

(** The columns [feature_engineering] reads, as [pd.read_csv] types them on
    the competition files: [datetime] holds strings that parse (or is
    already converted), [season] and [weather] are integer columns, [temp],
    [humidity] and [windspeed] are numeric columns.  Nothing is asked of
    the values of [season] and [weather]. *)
Record valid (d : DataFrame) (ts : list Timestamp) (se we : list Z)
    (te hu wi : Series) : Prop := mkValid {
  valid_wf : wf d;
  valid_datetime :
    ∃ s, cols d !! "datetime" = Some s ∧ datetime_values s = Some ts;
  valid_season : cols d !! "season" = Some (IntS se);
  valid_weather : cols d !! "weather" = Some (IntS we);
  valid_temp : cols d !! "temp" = Some te ∧ is_numeric te;
  valid_humidity : cols d !! "humidity" = Some hu ∧ is_numeric hu;
  valid_windspeed : cols d !! "windspeed" = Some wi ∧ is_numeric wi
}.

(** The rush hour and weekend flags of one row. *)
Definition rush_flag (t : Timestamp) : Z :=
  let h := hour_of t in
  if ((7 <=? h) && (h <=? 9) || (16 <=? h) && (h <=? 19)) && (dayofweek_of t <? 5)
  then 1 else 0.

Definition weekend_flag (t : Timestamp) : Z :=
  if 5 <=? dayofweek_of t then 1 else 0.

Definition weather_season_of (w s : Z) : option string :=
  Some ((pretty w +:+ "_") +:+ pretty s).

Definition numeric_cut (bins : list Q) (labels : list string) (s : Series) : Series :=
  match s with
  | IntS xs => CategoryS ((λ x, pd_cut bins labels (float_of_int x)) <$> xs)
  | FloatS xs => CategoryS (pd_cut bins labels <$> xs)
  | _ => s
  end.

(** The [time_of_day] column of the rows with timestamps [ts]: their
    labels, or the empty integer column that [apply] returns when there is
    no row. *)
Definition time_of_day_series (ts : list Timestamp) : Series :=
  match ts with
  | [] => IntS []
  | _ => ObjectS ((λ t, Some (time_of_day (hour_of t))) <$> ts)
  end.

(** The frame [feature_engineering] returns on a valid frame [d]; [th] and
    [tw] are the two product columns. *)
Definition enriched (d : DataFrame) (ts : list Timestamp) (se we : list Z)
    (te hu wi th tw : Series) : DataFrame :=
  set_col "temp_windspeed" tw
    (set_col "temp_humidity" th
    (set_col "windspeed_bin" (numeric_cut windspeed_bins windspeed_labels wi)
    (set_col "humidity_bin" (numeric_cut humidity_bins humidity_labels hu)
    (set_col "temp_bin" (numeric_cut temp_bins temp_labels te)
    (set_col "weather_season" (ObjectS (zip_with weather_season_of we se))
    (set_col "is_weekend" (IntS (weekend_flag <$> ts))
    (set_col "is_rush_hour" (IntS (rush_flag <$> ts))
    (set_col "time_of_day" (time_of_day_series ts)
    (set_col "dayofweek" (IntS (dayofweek_of <$> ts))
    (set_col "year" (IntS (year_of <$> ts))
    (set_col "month" (IntS (month_of <$> ts))
    (set_col "day" (IntS (day_of <$> ts))
    (set_col "hour" (IntS (hour_of <$> ts))
    (set_col "datetime" (DatetimeS ts) d)))))))))))))).

(** ** Rows

    The record view of the spec: a [RawRecord] is what one row of a valid
    frame holds in the columns [feature_engineering] reads, an
    [EnrichedRecord] is what one row holds in the columns it writes. *)

Definition time_of_cell (v : value) : option Timestamp :=
  match v with
  | VTime t => Some t
  | VStr (Some s) => parse_datetime s
  | _ => None
  end.

Definition int_of_cell (v : value) : option Z :=
  match v with VInt z => Some z | _ => None end.

Definition num_of_cell (v : value) : option num :=
  match v with
  | VInt z => Some (NInt z)
  | VFloat x => Some (NFloat x)
  | _ => None
  end.

Definition str_of_cell (v : value) : option (option string) :=
  match v with VStr s => Some s | _ => None end.

Definition cat_of_cell (v : value) : option (option string) :=
  match v with VCat s => Some s | _ => None end.

Definition raw_record (d : DataFrame) (i : nat) : option RawRecord :=
  t ← cell d "datetime" i ≫= time_of_cell;
  se ← cell d "season" i ≫= int_of_cell;
  we ← cell d "weather" i ≫= int_of_cell;
  te ← cell d "temp" i ≫= num_of_cell;
  hu ← cell d "humidity" i ≫= num_of_cell;
  wi ← cell d "windspeed" i ≫= num_of_cell;
  Some {| r_timestamp := t; r_season := se; r_weather := we;
          r_temp := te; r_humidity := hu; r_windspeed := wi |}.

Definition enriched_record (d : DataFrame) (i : nat) : option EnrichedRecord :=
  h ← cell d "hour" i ≫= int_of_cell;
  dd ← cell d "day" i ≫= int_of_cell;
  mo ← cell d "month" i ≫= int_of_cell;
  y ← cell d "year" i ≫= int_of_cell;
  w ← cell d "dayofweek" i ≫= int_of_cell;
  tod ← cell d "time_of_day" i ≫= str_of_cell;
  rush ← cell d "is_rush_hour" i ≫= int_of_cell;
  wk ← cell d "is_weekend" i ≫= int_of_cell;
  ws ← cell d "weather_season" i ≫= str_of_cell;
  tb ← cell d "temp_bin" i ≫= cat_of_cell;
  hb ← cell d "humidity_bin" i ≫= cat_of_cell;
  wb ← cell d "windspeed_bin" i ≫= cat_of_cell;
  th ← cell d "temp_humidity" i ≫= num_of_cell;
  tw ← cell d "temp_windspeed" i ≫= num_of_cell;
  Some {| e_hour := h; e_day := dd; e_month := mo; e_year := y; e_dayofweek := w;
          e_time_of_day := tod; e_is_rush_hour := rush; e_is_weekend := wk;
          e_weather_season := ws; e_temp_bin := tb; e_humidity_bin := hb;
          e_windspeed_bin := wb; e_temp_humidity := th; e_temp_windspeed := tw |}.

(** The product of two numeric cells, as [series_mul] computes it. *)
Definition mul_num (a b : num) : num :=
  match a, b with
  | NInt x, NInt y => NInt (wrap64 (x * y))
  | _, _ => NFloat (float_mul fmul (float_of_num a) (float_of_num b))
  end.

(** The spec's [enrich] on one record. *)
Definition enrich_record (r : RawRecord) : EnrichedRecord :=
  let t := r_timestamp r in
  {| e_hour := hour_of t;
     e_day := day_of t;
     e_month := month_of t;
     e_year := year_of t;
     e_dayofweek := dayofweek_of t;
     e_time_of_day := Some (time_of_day (hour_of t));
     e_is_rush_hour := rush_flag t;
     e_is_weekend := weekend_flag t;
     e_weather_season := weather_season_of (r_weather r) (r_season r);
     e_temp_bin := temp_bin (float_of_num (r_temp r));
     e_humidity_bin := humidity_bin (float_of_num (r_humidity r));
     e_windspeed_bin := windspeed_bin (float_of_num (r_windspeed r));
     e_temp_humidity := mul_num (r_temp r) (r_humidity r);
     e_temp_windspeed := mul_num (r_temp r) (r_windspeed r) |}.

(** The columns [feature_engineering] assigns. *)
Definition written_columns : list string :=
  ["datetime"; "hour"; "day"; "month"; "year"; "dayofweek"; "time_of_day";
   "is_rush_hour"; "is_weekend"; "weather_season"; "temp_bin"; "humidity_bin";
   "windspeed_bin"; "temp_humidity"; "temp_windspeed"].

(** ** Runs of heap computations *)

(** [m] reads the heap and returns [a] without changing it. *)
Definition evals {A} (m : M A) (h : heap) (a : A) : Prop := m h = (h, Ok a).

(** [m] changes no object other than the one at [l]. *)
Definition writes_only {A} (l : loc) (m : M A) : Prop :=
  ∀ (h : heap) (l0 : loc), l0 ≠ l → (m h).1 !! l0 = h !! l0.

(** [m] can only return [l]. *)
Definition returns_only (l : loc) (m : M loc) : Prop :=
  ∀ (h : heap) (l' : loc), (m h).2 = Ok l' → l' = l.

(** The frame a submission cell builds from the timestamps [ts] and the
    predictions [ps]. *)
Definition submission_frame (ts : list Timestamp) (ps : list float) : DataFrame :=
  let n := Nat.max (length ts) (length ps) in
  {| nrows := n;
     cols :=
       <["count" := FloatS ((clip_lower 0 <$> ps) ++ replicate (n - length ps) None)]>
         {["datetime" :=
             ObjectS (((λ t, Some (format_datetime t)) <$> ts)
                      ++ replicate (n - length ts) None)]} |}.

(** ** The other cells of the notebook *)

(** The first exploration cell converts [datetime] and adds [hour], in
    [train] and [test] themselves; the second adds [dayofweek].  (The plots
    of these cells only read [train].) *)
Definition hour_cell (train test : loc) : M unit :=
  assign train "datetime" (lift1 to_datetime (getitem train "datetime"));;
  assign test "datetime" (lift1 to_datetime (getitem test "datetime"));;
  assign train "hour" (lift1 (dt_field hour_of) (getitem train "datetime"));;
  assign test "hour" (lift1 (dt_field hour_of) (getitem test "datetime")).

Definition dayofweek_cell (train test : loc) : M unit :=
  assign train "dayofweek" (lift1 (dt_field dayofweek_of) (getitem train "datetime"));;
  assign test "dayofweek" (lift1 (dt_field dayofweek_of) (getitem test "datetime")).

(** The cell that applies [feature_engineering] to both sets; it returns
    the frames bound to [train_fe] and [test_fe]. *)
Definition engineer_cell (train test : loc) : M (loc * loc) :=
  train_fe ← feature_engineering train;
  test_fe ← feature_engineering test;
  mret (train_fe, test_fe).

(** [df.drop(c, axis=1)]: a new frame without the column [c]; a [KeyError]
    when [df] has no such column. *)
Definition drop (df : loc) (c : string) : M loc := λ h,
  match h !! df with
  | Some d =>
      match cols d !! c with
      | Some _ =>
          let l := fresh (dom h) in
          (<[l:={| nrows := nrows d; cols := delete c (cols d) |}]> h, Ok l)
      | None => (h, Raise (KeyError c))
      end
  | None => (h, Raise InvalidRef)
  end.

(** The first two statements of the preparation cell, which rebind
    [train_fe] and [test_fe] to frames without [datetime]. *)
Definition drop_datetime_cell (train_fe test_fe : loc) : M (loc * loc) :=
  train_fe ← drop train_fe "datetime";
  test_fe ← drop test_fe "datetime";
  mret (train_fe, test_fe).

(** ** More on runs *)

(** [m] raises [e] without changing the heap. *)
Definition raises {A} (m : M A) (h : heap) (e : exn) : Prop := m h = (h, Raise e).

(** [m] leaves every object of the heap as it is (it may add objects). *)
Definition preserves {A} (m : M A) : Prop :=
  ∀ (h : heap) (l0 : loc) (d0 : DataFrame),
    h !! l0 = Some d0 → (m h).1 !! l0 = Some d0.

Definition is_int (s : Series) : bool :=
  match s with IntS _ => true | _ => false end.

(** The columns [feature_engineering] reads, in the order in which it first
    reads them, each with what the function needs of it. *)
Definition required_columns : list (string * (Series → Prop)) :=
  [("datetime", λ s, is_Some (datetime_values s));
   ("weather", λ s, Is_true (is_int s));
   ("season", λ s, Is_true (is_int s));
   ("temp", λ s, Is_true (is_numeric s));
   ("humidity", λ s, Is_true (is_numeric s));
   ("windspeed", λ s, Is_true (is_numeric s))].

(** The string [s] does not hold the character [a]. *)
Fixpoint free_of (a : Ascii.ascii) (s : string) : Prop :=
  match s with
  | EmptyString => True
  | String b s' => b ≠ a ∧ free_of a s'
  end.

(** A frame after the two exploration cells: [datetime] converted, [hour]
    and [dayofweek] added. *)
Definition explored (d : DataFrame) (ts : list Timestamp) : DataFrame :=
  set_col "dayofweek" (IntS (dayofweek_of <$> ts))
    (set_col "hour" (IntS (hour_of <$> ts))
       (set_col "datetime" (DatetimeS ts) d)).

(** ** Running the heap computations *)

Lemma run_bind {A B} (m : M A) (k : A → M B) (h h' : heap) (a : A) :
  m h = (h', Ok a) → (m ≫= k) h = k a h'.
Proof. intros E. unfold mbind, M_bind. by rewrite E. Qed.

Lemma evals_getitem (l : loc) (c : string) (h : heap) (d : DataFrame) (s : Series) :
  cols d !! c = Some s → evals (getitem l c) (<[l:=d]> h) s.
Proof. intros E. unfold evals, getitem. by rewrite lookup_insert_eq, E. Qed.

Lemma evals_lift1 f e (h : heap) s s' :
  evals e h s → f s = Ok s' → evals (lift1 f e) h s'.
Proof.
  unfold evals, lift1. intros E F.
  rewrite (run_bind _ _ _ _ _ E). unfold lift. by rewrite F.
Qed.

Lemma evals_lift2 f e1 e2 (h : heap) s1 s2 s' :
  evals e1 h s1 → evals e2 h s2 → f s1 s2 = Ok s' → evals (lift2 f e1 e2) h s'.
Proof.
  unfold evals, lift2. intros E1 E2 F.
  rewrite (run_bind _ _ _ _ _ E1), (run_bind _ _ _ _ _ E2). unfold lift. by rewrite F.
Qed.

Lemma run_assign (l : loc) c e (h : heap) d s :
  evals e (<[l:=d]> h) s → Series_len s = nrows d →
  assign l c e (<[l:=d]> h) = (<[l:=set_col c s d]> h, Ok ()).
Proof.
  unfold evals, assign. intros E L. rewrite (run_bind _ _ _ _ _ E).
  unfold setitem. rewrite lookup_insert_eq, decide_True by done.
  by rewrite insert_insert_eq.
Qed.

Lemma run_copy (l : loc) (h : heap) d :
  h !! l = Some d → copy l h = (<[fresh (dom h):=d]> h, Ok (fresh (dom h))).
Proof. intros E. unfold copy. by rewrite E. Qed.

Lemma fresh_loc_None (h : heap) : h !! fresh (dom h) = None.
Proof. apply not_elem_of_dom, is_fresh. Qed.

(** ** The column operations on valid columns *)

Lemma datetime_values_length s ts :
  datetime_values s = Some ts → length ts = Series_len s.
Proof.
  destruct s as [xs| | | | |]; simpl; try done.
  - intros E. destruct (mapM id xs) as [strs|] eqn:E1; simpl in E; [|done].
    apply length_mapM in E1, E. simpl. congruence.
  - by intros [= ->].
Qed.

Lemma to_datetime_values s ts :
  datetime_values s = Some ts → to_datetime s = Ok (DatetimeS ts).
Proof.
  destruct s as [xs| | | | |]; simpl; try done.
  - intros E. destruct (mapM id xs) as [strs|]; simpl in E; [|done]. by rewrite E.
  - by intros [= ->].
Qed.

Lemma datetime_values_not_datetime64 s ts :
  datetime_values s = Some ts → is_datetime64 s = true → s = DatetimeS ts.
Proof. destruct s; simpl; try done. by intros [= ->]. Qed.

Lemma cut_numeric bins labels s :
  is_numeric s → cut bins labels s = Ok (numeric_cut bins labels s).
Proof. by destruct s. Qed.

Lemma numeric_cut_length bins labels s :
  Series_len (numeric_cut bins labels s) = Series_len s.
Proof. destruct s; simpl; by rewrite ?length_fmap. Qed.

Lemma series_mul_numeric a b :
  is_numeric a → is_numeric b → Series_len a = Series_len b →
  ∃ s, series_mul fmul a b = Ok s ∧ Series_len s = Series_len a.
Proof.
  intros Ha Hb L. unfold series_mul. rewrite decide_True by done.
  destruct a, b; try done; simpl in *; eexists; (split; [done|]);
    simpl; by rewrite length_zip_with_l_eq.
Qed.

Lemma wf_lookup d c s : wf d → cols d !! c = Some s → Series_len s = nrows d.
Proof. intros W E. exact (W c s E). Qed.

Lemma wf_set_col c s d : wf d → Series_len s = nrows d → wf (set_col c s d).
Proof. intros W L. unfold wf, set_col; simpl. by apply map_Forall_insert_2. Qed.

Section valid_frame.
Context {d : DataFrame} {ts : list Timestamp} {se we : list Z} {te hu wi : Series}.
Hypothesis V : valid d ts se we te hu wi.

Lemma valid_length_ts : length ts = nrows d.
Proof.
    destruct (valid_datetime _ _ _ _ _ _ _ V) as (s & E & D).
    rewrite (datetime_values_length _ _ D). by eapply wf_lookup, E; apply V.
Qed.

Lemma valid_length_se : length se = nrows d.
Proof. by apply (wf_lookup d "season" (IntS se)); apply V. Qed.

Lemma valid_length_we : length we = nrows d.
Proof. by apply (wf_lookup d "weather" (IntS we)); apply V. Qed.

Lemma valid_length_te : Series_len te = nrows d.
Proof. by apply (wf_lookup d "temp"); apply V. Qed.

Lemma valid_length_hu : Series_len hu = nrows d.
Proof. by apply (wf_lookup d "humidity"); apply V. Qed.

Lemma valid_length_wi : Series_len wi = nrows d.
Proof. by apply (wf_lookup d "windspeed"); apply V. Qed.

Lemma valid_products :
    ∃ th tw, series_mul fmul te hu = Ok th ∧ series_mul fmul te wi = Ok tw
             ∧ Series_len th = nrows d ∧ Series_len tw = nrows d.
Proof.
    destruct (series_mul_numeric te hu) as (th & E1 & L1);
      [apply V ..| by rewrite valid_length_te, valid_length_hu |].
    destruct (series_mul_numeric te wi) as (tw & E2 & L2);
      [apply V ..| by rewrite valid_length_te, valid_length_wi |].
    exists th, tw. by rewrite L1, L2, valid_length_te.
Qed.
End valid_frame.

Lemma time_of_day_column (ts : list Timestamp) :
  apply_int time_of_day (IntS (hour_of <$> ts)) = Ok (time_of_day_series ts).
Proof.
  destruct ts as [|t ts]; [done|]. simpl. do 3 f_equal.
  by rewrite <- list_fmap_compose.
Qed.

Lemma time_of_day_series_length (ts : list Timestamp) :
  Series_len (time_of_day_series ts) = length ts.
Proof. destruct ts; simpl; by rewrite ?length_fmap. Qed.

Lemma time_of_day_series_cell (ts : list Timestamp) i t :
  ts !! i = Some t →
  iloc (time_of_day_series ts) i = Some (VStr (Some (time_of_day (hour_of t)))).
Proof.
  intros Ht. destruct ts as [|t0 ts]; [done|].
  unfold time_of_day_series. cbn [iloc]. by rewrite list_lookup_fmap, Ht.
Qed.

Ltac lookup_col :=
  cbn [cols set_col];
  repeat (rewrite lookup_insert_ne; [|discriminate]);
  first [apply lookup_insert_eq | eassumption].

Ltac len :=
  cbn [Series_len nrows set_col];
  rewrite ?length_fmap, ?numeric_cut_length, ?time_of_day_series_length;
  repeat (rewrite length_zip_with_l_eq; rewrite ?length_fmap);
  congruence.

Ltac op :=
  first
    [ apply time_of_day_column
    | reflexivity
    | eassumption
    | apply cut_numeric; assumption
    | unfold series_and, series_or, bool_op, str_add;
      rewrite decide_True by len; reflexivity ].

Ltac eval_expr :=
  lazymatch goal with
  | |- evals (getitem _ _) _ _ => eapply evals_getitem; lookup_col
  | |- evals (lift1 _ _) _ _ => eapply evals_lift1; [eval_expr | op]
  | |- evals (lift2 _ _ _) _ _ => eapply evals_lift2; [eval_expr | eval_expr | op]
  end.

Ltac step :=
  erewrite run_bind; [| eapply run_assign; [eval_expr | len]].

Ltac list_cells xs :=
  apply list_eq; intros i;
  rewrite ?list_lookup_fmap, ?lookup_zip_with, ?list_lookup_fmap;
  destruct (xs !! i); simpl; try done.

Lemma rush_hour_column (ts : list Timestamp) :
  (λ b : bool, if b then 1 else 0) <$>
    zip_with andb
      (zip_with orb
         (zip_with andb ((λ x, 7 <=? x) <$> (hour_of <$> ts))
                        ((λ x, x <=? 9) <$> (hour_of <$> ts)))
         (zip_with andb ((λ x, 16 <=? x) <$> (hour_of <$> ts))
                        ((λ x, x <=? 19) <$> (hour_of <$> ts))))
      ((λ x, x <? 5) <$> (dayofweek_of <$> ts))
  = rush_flag <$> ts.
Proof. list_cells ts. Qed.

Lemma weekend_column (ts : list Timestamp) :
  (λ b : bool, if b then 1 else 0) <$> ((λ x, 5 <=? x) <$> (dayofweek_of <$> ts))
  = weekend_flag <$> ts.
Proof. list_cells ts. Qed.

Lemma weather_season_column (we se : list Z) :
  zip_with (λ x y : option string, x' ← x; y' ← y; Some (x' +:+ y'))
    ((λ x : option string, (λ x', x' +:+ "_") <$> x) <$> ((λ x, Some (pretty x)) <$> we))
    ((λ x, Some (pretty x)) <$> se)
  = zip_with weather_season_of we se.
Proof. list_cells we. by destruct (se !! i). Qed.

Lemma feature_engineering_run (h : heap) (l : loc) d ts se we te hu wi th tw :
  h !! l = Some d → valid d ts se we te hu wi →
  series_mul fmul te hu = Ok th → series_mul fmul te wi = Ok tw →
  feature_engineering l h
  = (<[fresh (dom h):=enriched d ts se we te hu wi th tw]> h, Ok (fresh (dom h))).
Proof.
  intros Hl V Eth Etw.
  pose proof (valid_length_ts V) as Lts.
  pose proof (valid_length_se V) as Lse.
  pose proof (valid_length_we V) as Lwe.
  pose proof (valid_length_te V) as Lte.
  pose proof (valid_length_hu V) as Lhu.
  pose proof (valid_length_wi V) as Lwi.
  destruct V as [W (s & Es & D) Ese Ewe [Ete Nte] [Ehu Nhu] [Ewi Nwi]].
  assert (Series_len th = nrows d) as Lth.
  { destruct (series_mul_numeric te hu) as (x & E & L); [done..|congruence|].
    rewrite Eth in E. injection E as ->. congruence. }
  assert (Series_len tw = nrows d) as Ltw.
  { destruct (series_mul_numeric te wi) as (x & E & L); [done..|congruence|].
    rewrite Etw in E. injection E as ->. congruence. }
  unfold feature_engineering.
  rewrite (run_bind _ _ _ _ _ (run_copy _ _ _ Hl)).
  set (l' := fresh (dom h)).
  rewrite (run_bind _ _ _ _ _ (evals_getitem l' _ h d s Es)).
  assert ((if is_datetime64 s then mret ()
           else assign l' "datetime" (lift1 to_datetime (getitem l' "datetime")))
            (<[l':=d]> h)
          = (<[l':=set_col "datetime" (DatetimeS ts) d]> h, Ok ())) as Hconv.
  { destruct (is_datetime64 s) eqn:Ed.
    - rewrite (datetime_values_not_datetime64 _ _ D Ed) in Es.
      unfold set_col. rewrite (insert_id _ _ _ Es). by destruct d.
    - apply run_assign; [|len].
      eapply evals_lift1; [by apply evals_getitem|]. by apply to_datetime_values. }
  rewrite (run_bind _ _ _ _ _ Hconv). clear Hconv.
  do 14 step.
  rewrite rush_hour_column, weekend_column, weather_season_column.
  reflexivity.
Qed.

(** ** Cells of the enriched frame *)

Lemma cell_set_col_eq c s d i : cell (set_col c s d) c i = iloc s i.
Proof. unfold cell, set_col; simpl. by rewrite lookup_insert_eq. Qed.

Lemma cell_set_col_ne c c' s d i :
  c ≠ c' → cell (set_col c s d) c' i = cell d c' i.
Proof. intros N. unfold cell, set_col; simpl. by rewrite lookup_insert_ne. Qed.

Lemma datetime_values_cell s ts i t :
  datetime_values s = Some ts → ts !! i = Some t →
  iloc s i ≫= time_of_cell = Some t.
Proof.
  destruct s as [xs| | | | |]; simpl; try done.
  - intros E Ht. destruct (mapM id xs) as [strs|] eqn:E1; simpl in E; [|done].
    apply mapM_Some in E1, E.
    destruct (Forall2_lookup_r _ _ _ _ _ E Ht) as (str & Hs & P).
    destruct (Forall2_lookup_r _ _ _ _ _ E1 Hs) as (x & Hx & Px).
    rewrite Hx. simpl in *. by subst x.
  - intros [= ->] ->. done.
Qed.

Lemma numeric_cell s i :
  is_numeric s → (i < Series_len s)%nat →
  ∃ n, iloc s i ≫= num_of_cell = Some n.
Proof.
  destruct s as [| |xs| |xs|]; try done; simpl; intros _ L;
    destruct (lookup_lt_is_Some_2 xs i L) as [x ->]; simpl; eauto.
Qed.

Lemma numeric_cut_cell bins labels s i n :
  iloc s i ≫= num_of_cell = Some n →
  iloc (numeric_cut bins labels s) i
  = Some (VCat (pd_cut bins labels (float_of_num n))).
Proof.
  destruct s as [xs|xs|xs|xs|xs|xs]; simpl; rewrite ?list_lookup_fmap;
    destruct (xs !! i); simpl; try done; by intros [= <-].
Qed.

Lemma series_mul_cell a b s i x y :
  series_mul fmul a b = Ok s →
  iloc a i ≫= num_of_cell = Some x → iloc b i ≫= num_of_cell = Some y →
  iloc s i ≫= num_of_cell = Some (mul_num x y).
Proof.
  unfold series_mul. case_decide; [|done].
  destruct a as [|?|xs|?|xs|?], b as [|?|ys|?|ys|?]; try done;
    intros [= <-]; simpl; rewrite lookup_zip_with;
    destruct (xs !! i); simpl; try done; destruct (ys !! i); simpl; try done;
    by intros [= <-] [= <-].
Qed.

Ltac enriched_cell :=
  unfold enriched;
  repeat (rewrite cell_set_col_ne by discriminate);
  rewrite cell_set_col_eq.

(** Row [i] of the frame [feature_engineering] builds is [enrich_record]
    of row [i] of its input. *)
Lemma enriched_rows d ts se we te hu wi th tw i :
  valid d ts se we te hu wi →
  series_mul fmul te hu = Ok th → series_mul fmul te wi = Ok tw →
  (i < nrows d)%nat →
  ∃ r, raw_record d i = Some r
       ∧ enriched_record (enriched d ts se we te hu wi th tw) i
         = Some (enrich_record r).
Proof.
  intros V Eth Etw Hi.
  pose proof (valid_length_ts V) as Lts.
  pose proof (valid_length_se V) as Lse.
  pose proof (valid_length_we V) as Lwe.
  pose proof (valid_length_te V) as Lte.
  pose proof (valid_length_hu V) as Lhu.
  pose proof (valid_length_wi V) as Lwi.
  destruct V as [W (s & Es & D) Ese Ewe [Ete Nte] [Ehu Nhu] [Ewi Nwi]].
  destruct (lookup_lt_is_Some_2 ts i) as [t Ht]; [lia|].
  destruct (lookup_lt_is_Some_2 se i) as [xs Hse]; [lia|].
  destruct (lookup_lt_is_Some_2 we i) as [xw Hwe]; [lia|].
  destruct (numeric_cell te i Nte) as [nt Hte]; [lia|].
  destruct (numeric_cell hu i Nhu) as [nh Hhu]; [lia|].
  destruct (numeric_cell wi i Nwi) as [nw Hwi]; [lia|].
  exists {| r_timestamp := t; r_season := xs; r_weather := xw;
            r_temp := nt; r_humidity := nh; r_windspeed := nw |}.
  split.
  - unfold raw_record, cell. rewrite Es, Ese, Ewe, Ete, Ehu, Ewi. simpl.
    rewrite (datetime_values_cell _ _ _ _ D Ht), Hse, Hwe, Hte, Hhu, Hwi. done.
  - set (out := enriched d ts se we te hu wi th tw). unfold enriched_record.
    assert (cell out "hour" i = Some (VInt (hour_of t))) as ->.
    { subst out. enriched_cell. simpl. by rewrite list_lookup_fmap, Ht. }
    assert (cell out "day" i = Some (VInt (day_of t))) as ->.
    { subst out. enriched_cell. simpl. by rewrite list_lookup_fmap, Ht. }
    assert (cell out "month" i = Some (VInt (month_of t))) as ->.
    { subst out. enriched_cell. simpl. by rewrite list_lookup_fmap, Ht. }
    assert (cell out "year" i = Some (VInt (year_of t))) as ->.
    { subst out. enriched_cell. simpl. by rewrite list_lookup_fmap, Ht. }
    assert (cell out "dayofweek" i = Some (VInt (dayofweek_of t))) as ->.
    { subst out. enriched_cell. simpl. by rewrite list_lookup_fmap, Ht. }
    assert (cell out "time_of_day" i
            = Some (VStr (Some (time_of_day (hour_of t))))) as ->.
  { subst out. enriched_cell. by apply time_of_day_series_cell. }
    assert (cell out "is_rush_hour" i = Some (VInt (rush_flag t))) as ->.
    { subst out. enriched_cell. simpl. by rewrite list_lookup_fmap, Ht. }
    assert (cell out "is_weekend" i = Some (VInt (weekend_flag t))) as ->.
    { subst out. enriched_cell. simpl. by rewrite list_lookup_fmap, Ht. }
    assert (cell out "weather_season" i
            = Some (VStr (weather_season_of xw xs))) as ->.
    { subst out. enriched_cell. simpl. by rewrite lookup_zip_with, Hwe, Hse. }
    assert (cell out "temp_bin" i
            = Some (VCat (temp_bin (float_of_num nt)))) as ->.
    { subst out. enriched_cell. by apply numeric_cut_cell. }
    assert (cell out "humidity_bin" i
            = Some (VCat (humidity_bin (float_of_num nh)))) as ->.
    { subst out. enriched_cell. by apply numeric_cut_cell. }
    assert (cell out "windspeed_bin" i
            = Some (VCat (windspeed_bin (float_of_num nw)))) as ->.
    { subst out. enriched_cell. by apply numeric_cut_cell. }
    assert (cell out "temp_humidity" i ≫= num_of_cell = Some (mul_num nt nh)) as ->.
    { subst out. enriched_cell. by apply (series_mul_cell te hu). }
    assert (cell out "temp_windspeed" i ≫= num_of_cell = Some (mul_num nt nw)) as ->.
    { subst out. enriched_cell. by apply (series_mul_cell te wi). }
    done.
Qed.

(** ** Which objects a computation writes *)

Lemma writes_only_ret {A} l (a : A) : writes_only l (mret a).
Proof. by intros h l0 _. Qed.

Lemma writes_only_lift {A} l (r : Result A) : writes_only l (lift r).
Proof. by intros h l0 _. Qed.

Lemma writes_only_getitem l l1 c : writes_only l (getitem l1 c).
Proof.
  intros h l0 _. unfold getitem.
  destruct (h !! l1) as [d|]; [|done]. by destruct (cols d !! c).
Qed.

Lemma writes_only_setitem l c s : writes_only l (setitem l c s).
Proof.
  intros h l0 N. unfold setitem. destruct (h !! l) as [d|]; [|done].
  case_decide; [|done]. simpl. by rewrite lookup_insert_ne.
Qed.

Lemma writes_only_bind {A B} l (m : M A) (k : A → M B) :
  writes_only l m → (∀ a, writes_only l (k a)) → writes_only l (m ≫= k).
Proof.
  intros Hm Hk h l0 N. unfold mbind, M_bind.
  specialize (Hm h l0 N). destruct (m h) as [h' [a|e]]; simpl in *.
  - by rewrite (Hk a h' l0 N).
  - done.
Qed.

Lemma writes_only_lift1 l f e : writes_only l e → writes_only l (lift1 f e).
Proof.
  intros He. apply writes_only_bind; [done|]. intros s. apply writes_only_lift.
Qed.

Lemma writes_only_lift2 l f e1 e2 :
  writes_only l e1 → writes_only l e2 → writes_only l (lift2 f e1 e2).
Proof.
  intros H1 H2. apply writes_only_bind; [done|]. intros s1.
  apply writes_only_bind; [done|]. intros s2. apply writes_only_lift.
Qed.

Lemma writes_only_assign l c e : writes_only l e → writes_only l (assign l c e).
Proof.
  intros He. apply writes_only_bind; [done|]. intros s. apply writes_only_setitem.
Qed.

Create HintDb writes discriminated.
Hint Resolve writes_only_ret writes_only_lift writes_only_getitem
  writes_only_setitem writes_only_lift1 writes_only_lift2 writes_only_assign : writes.

Lemma returns_only_ret l : returns_only l (mret l).
Proof. intros h l'. by intros [= <-]. Qed.

Lemma returns_only_bind {A} l (m : M A) (k : A → M loc) :
  (∀ a, returns_only l (k a)) → returns_only l (m ≫= k).
Proof.
  intros Hk h l'. unfold mbind, M_bind.
  destruct (m h) as [h' [a|e]]; simpl; [apply Hk|done].
Qed.

(** ** [feature_engineering] on a valid frame *)

Lemma feature_engineering_valid (h : heap) (l : loc) d ts se we te hu wi :
  h !! l = Some d → valid d ts se we te hu wi →
  ∃ th tw,
    series_mul fmul te hu = Ok th ∧ series_mul fmul te wi = Ok tw
    ∧ Series_len th = nrows d ∧ Series_len tw = nrows d
    ∧ feature_engineering l h
      = (<[fresh (dom h):=enriched d ts se we te hu wi th tw]> h,
         Ok (fresh (dom h))).
Proof.
  intros Hl V. destruct (valid_products V) as (th & tw & Eth & Etw & Lth & Ltw).
  exists th, tw. repeat split; try done. by apply feature_engineering_run.
Qed.

Lemma enriched_nrows d ts se we te hu wi th tw :
  nrows (enriched d ts se we te hu wi th tw) = nrows d.
Proof. done. Qed.

Lemma enriched_unwritten d ts se we te hu wi th tw c :
  c ∉ written_columns →
  cols (enriched d ts se we te hu wi th tw) !! c = cols d !! c.
Proof.
  intros Hc. unfold written_columns in Hc.
  repeat (apply not_elem_of_cons in Hc as [? Hc]).
  unfold enriched. cbn [cols set_col].
  by rewrite !lookup_insert_ne.
Qed.

Lemma enriched_wf d ts se we te hu wi th tw :
  valid d ts se we te hu wi →
  Series_len th = nrows d → Series_len tw = nrows d →
  wf (enriched d ts se we te hu wi th tw).
Proof.
  intros V Lth Ltw.
  pose proof (valid_length_ts V) as Lts.
  pose proof (valid_length_se V) as Lse.
  pose proof (valid_length_we V) as Lwe.
  pose proof (valid_length_te V) as Lte.
  pose proof (valid_length_hu V) as Lhu.
  pose proof (valid_length_wi V) as Lwi.
  unfold enriched. repeat (apply wf_set_col; [|len]). apply V.
Qed.

(** The frame built from a valid frame is valid, with the same rows. *)
Lemma enriched_valid d ts se we te hu wi th tw :
  valid d ts se we te hu wi →
  Series_len th = nrows d → Series_len tw = nrows d →
  valid (enriched d ts se we te hu wi th tw) ts se we te hu wi.
Proof.
  intros V Lth Ltw. split.
  - by apply enriched_wf.
  - exists (DatetimeS ts). split; [|done]. unfold enriched. lookup_col.
  - rewrite enriched_unwritten; [apply V|]. by apply (bool_decide_unpack _).
  - rewrite enriched_unwritten; [apply V|]. by apply (bool_decide_unpack _).
  - rewrite enriched_unwritten; [apply V|]. by apply (bool_decide_unpack _).
  - rewrite enriched_unwritten; [apply V|]. by apply (bool_decide_unpack _).
  - rewrite enriched_unwritten; [apply V|]. by apply (bool_decide_unpack _).
Qed.

Lemma valid_raw_record d ts se we te hu wi i :
  valid d ts se we te hu wi → (i < nrows d)%nat →
  ∃ t xs xw nt nh nw,
    ts !! i = Some t ∧ se !! i = Some xs ∧ we !! i = Some xw
    ∧ iloc te i ≫= num_of_cell = Some nt
    ∧ iloc hu i ≫= num_of_cell = Some nh
    ∧ iloc wi i ≫= num_of_cell = Some nw
    ∧ raw_record d i
      = Some {| r_timestamp := t; r_season := xs; r_weather := xw;
                r_temp := nt; r_humidity := nh; r_windspeed := nw |}.
Proof.
  intros V Hi.
  pose proof (valid_length_ts V) as Lts.
  pose proof (valid_length_se V) as Lse.
  pose proof (valid_length_we V) as Lwe.
  pose proof (valid_length_te V) as Lte.
  pose proof (valid_length_hu V) as Lhu.
  pose proof (valid_length_wi V) as Lwi.
  destruct V as [W (s & Es & D) Ese Ewe [Ete Nte] [Ehu Nhu] [Ewi Nwi]].
  destruct (lookup_lt_is_Some_2 ts i) as [t Ht]; [lia|].
  destruct (lookup_lt_is_Some_2 se i) as [xs Hse]; [lia|].
  destruct (lookup_lt_is_Some_2 we i) as [xw Hwe]; [lia|].
  destruct (numeric_cell te i Nte) as [nt Hte]; [lia|].
  destruct (numeric_cell hu i Nhu) as [nh Hhu]; [lia|].
  destruct (numeric_cell wi i Nwi) as [nw Hwi]; [lia|].
  exists t, xs, xw, nt, nh, nw. repeat (split; [done|]).
  unfold raw_record, cell. rewrite Es, Ese, Ewe, Ete, Ehu, Ewi. simpl.
  by rewrite (datetime_values_cell _ _ _ _ D Ht), Hse, Hwe, Hte, Hhu, Hwi.
Qed.

(** The call on a valid frame, seen from one row. *)
Lemma feature_engineering_row (h : heap) (l : loc) d ts se we te hu wi i :
  h !! l = Some d → valid d ts se we te hu wi → (i < nrows d)%nat →
  ∃ l' out r,
    feature_engineering l h = (<[l':=out]> h, Ok l')
    ∧ raw_record d i = Some r
    ∧ enriched_record out i = Some (enrich_record r).
Proof.
  intros Hl V Hi.
  destruct (feature_engineering_valid h l _ _ _ _ _ _ _ Hl V)
    as (th & tw & Eth & Etw & _ & _ & Run).
  destruct (enriched_rows _ _ _ _ _ _ _ th tw i V Eth Etw Hi) as (r & Hr & He).
  eauto 10.
Qed.

Lemma set_col_id c s d : cols d !! c = Some s → set_col c s d = d.
Proof. intros E. destruct d as [n m]. unfold set_col; simpl in *. by rewrite insert_id. Qed.

Lemma enriched_idem d ts se we te hu wi th tw :
  let out := enriched d ts se we te hu wi th tw in
  enriched out ts se we te hu wi th tw = out.
Proof.
  intros out. unfold enriched at 1.
  do 15 (rewrite (set_col_id _ _ out) by (subst out; unfold enriched; lookup_col)).
  done.
Qed.

(** ** The two flags *)

Ltac case_tests :=
  repeat match goal with
         | |- context [?a <=? ?b] => destruct (Z.leb_spec a b)
         | |- context [?a <? ?b] => destruct (Z.ltb_spec a b)
         end.

Lemma rush_flag_spec t :
  (rush_flag t = 1 ∨ rush_flag t = 0)
  ∧ (rush_flag t = 1
     ↔ dayofweek_of t < 5 ∧ (7 ≤ hour_of t ≤ 9 ∨ 16 ≤ hour_of t ≤ 19)).
Proof.
  unfold rush_flag. cbv zeta.
  generalize (hour_of t) (dayofweek_of t). intros a b.
  case_tests; simpl; lia.
Qed.

Lemma weekend_flag_spec t : weekend_flag t = 1 ↔ 5 ≤ dayofweek_of t.
Proof. unfold weekend_flag. case_tests; lia. Qed.

(** ** [pd.cut] *)

Lemma searchsorted_left_below bins x j b :
  (j < searchsorted_left bins x)%nat → bins !! j = Some b → (b < x)%Q.
Proof.
  revert j. induction bins as [|b0 bins IH]; intros j; simpl; [lia|].
  destruct (Qlt_le_dec b0 x) as [Hlt|Hle]; [|lia].
  destruct j as [|j]; simpl.
  - by intros _ [= <-].
  - intros Hj. apply IH. lia.
Qed.

Lemma searchsorted_left_at bins x b :
  bins !! searchsorted_left bins x = Some b → (x <= b)%Q.
Proof.
  induction bins as [|b0 bins IH]; simpl; [done|].
  destruct (Qlt_le_dec b0 x) as [Hlt|Hle]; simpl; [done|]. by intros [= <-].
Qed.

Lemma searchsorted_left_interval bins k lo hi x :
  StronglySorted Qlt bins →
  bins !! k = Some lo → bins !! S k = Some hi →
  (lo < x)%Q → (x <= hi)%Q →
  searchsorted_left bins x = S k.
Proof.
  intros Hs. revert k. induction Hs as [|b0 bins Hs IH Hall]; intros k; [done|].
  destruct k as [|k]; simpl.
  - intros [= <-] Hhi Hlo Hx.
    destruct (Qlt_le_dec b0 x) as [_|Hle]; [|by apply Qle_not_lt in Hle].
    destruct bins as [|b1 bins]; simpl in *; [done|]. injection Hhi as ->.
    destruct (Qlt_le_dec hi x) as [Hlt|_]; [by apply Qlt_not_le in Hlt|done].
  - intros Hlo Hhi Hx1 Hx2.
    assert (b0 < lo)%Q as Hb.
    { rewrite Forall_forall in Hall. apply Hall.
      eapply list_elem_of_lookup_2, Hlo. }
    destruct (Qlt_le_dec b0 x) as [_|Hle].
    + f_equal. by apply IH.
    + exfalso. apply (Qle_not_lt _ _ Hle). by apply Qlt_trans with lo.
Qed.

Lemma pd_cut_interval bins labels k lo hi x :
  StronglySorted Qlt bins →
  bins !! k = Some lo → bins !! S k = Some hi →
  (lo < x)%Q → (x <= hi)%Q →
  pd_cut bins labels (Some x) = labels !! k.
Proof.
  intros Hs Hlo Hhi H1 H2. unfold pd_cut.
  rewrite (searchsorted_left_interval bins k lo hi x) by done.
  apply lookup_lt_Some in Hhi.
  rewrite bool_decide_eq_false_2 by done.
  rewrite bool_decide_eq_false_2 by lia. simpl. by rewrite Nat.sub_0_r.
Qed.

Lemma pd_cut_Some bins labels x lab :
  pd_cut bins labels (Some x) = Some lab →
  ∃ k lo hi, labels !! k = Some lab ∧ bins !! k = Some lo ∧ bins !! S k = Some hi
             ∧ (lo < x)%Q ∧ (x <= hi)%Q.
Proof.
  unfold pd_cut. set (ids := searchsorted_left bins x).
  case_bool_decide as H0; [done|]. case_bool_decide as H1; [done|]. simpl.
  intros Hlab. exists (ids - 1)%nat.
  assert (ids ≤ length bins)%nat as Hle.
  { subst ids. clear. induction bins as [|b bins IH]; simpl; [lia|].
    destruct (Qlt_le_dec b x); lia. }
  destruct (lookup_lt_is_Some_2 bins (ids - 1)) as [lo Hlo]; [lia|].
  destruct (lookup_lt_is_Some_2 bins ids) as [hi Hhi]; [lia|].
  exists lo, hi. replace (S (ids - 1)) with ids by lia.
  repeat split; try done.
  - apply (searchsorted_left_below bins x (ids - 1)); [fold ids; lia|done].
  - by apply (searchsorted_left_at bins).
Qed.

Lemma pd_cut_iff bins labels x lab :
  StronglySorted Qlt bins →
  pd_cut bins labels (Some x) = Some lab
  ↔ ∃ k lo hi, labels !! k = Some lab ∧ bins !! k = Some lo ∧ bins !! S k = Some hi
               ∧ (lo < x)%Q ∧ (x <= hi)%Q.
Proof.
  intros Hs. split; [apply pd_cut_Some|].
  intros (k & lo & hi & Hlab & Hlo & Hhi & H1 & H2).
  by rewrite (pd_cut_interval bins labels k lo hi x).
Qed.

Lemma pd_cut_lowest b0 bins labels x :
  (x <= b0)%Q → pd_cut (b0 :: bins) labels (Some x) = None.
Proof.
  intros Hx. unfold pd_cut; simpl.
  destruct (Qlt_le_dec b0 x) as [Hlt|_]; [by apply Qlt_not_le in Hlt|done].
Qed.

Lemma sorted_bins :
  StronglySorted Qlt temp_bins ∧ StronglySorted Qlt humidity_bins
  ∧ StronglySorted Qlt windspeed_bins.
Proof.
  repeat split; repeat (constructor; [|repeat constructor; done]); constructor.
Qed.

(** ** The submission cell *)

Lemma reindex_float n xs :
  (length xs ≤ n)%nat →
  reindex n (FloatS xs) = Ok (FloatS (xs ++ replicate (n - length xs) None)).
Proof.
  intros L. unfold reindex. simpl. case_decide as E; [|done].
  subst n. by rewrite Nat.sub_diag, app_nil_r.
Qed.

Lemma reindex_object n xs :
  (length xs ≤ n)%nat →
  reindex n (ObjectS xs) = Ok (ObjectS (xs ++ replicate (n - length xs) None)).
Proof.
  intros L. unfold reindex. simpl. case_decide as E; [|done].
  subst n. by rewrite Nat.sub_diag, app_nil_r.
Qed.

Lemma submission_cell_run (h : heap) (test : loc) d ts ps :
  h !! test = Some d → cols d !! "datetime" = Some (DatetimeS ts) →
  submission_cell test (FloatS ps) h
  = (<[fresh (dom h):=submission_frame ts ps]> h, Ok (fresh (dom h))).
Proof.
  intros Hl Hd. unfold submission_cell.
  assert (evals (lift1 astype_str (getitem test "datetime")) h
            (ObjectS ((λ t, Some (format_datetime t)) <$> ts))) as E.
  { eapply evals_lift1; [unfold evals, getitem; by rewrite Hl, Hd|reflexivity]. }
  rewrite (run_bind _ _ _ _ _ E).
  set (n := Nat.max (length ts) (length ps)).
  set (strs := (λ t, Some (format_datetime t)) <$> ts).
  assert (DataFrame_of_dict "datetime" (ObjectS strs) "count" (FloatS ps) h
          = (<[fresh (dom h):=
                 {| nrows := n;
                    cols := <["count":=FloatS (ps ++ replicate (n - length ps) None)]>
                              {["datetime" :=
                                  ObjectS (strs ++ replicate (n - length strs) None)]} |}]> h,
             Ok (fresh (dom h)))) as F.
  { unfold DataFrame_of_dict. cbn [Series_len].
    replace (length strs) with (length ts) by (subst strs; by rewrite length_fmap).
    fold n. rewrite reindex_object, reindex_float; [|lia|].
    - by replace (length strs) with (length ts) by (subst strs; by rewrite length_fmap).
    - replace (length strs) with (length ts) by (subst strs; by rewrite length_fmap). lia. }
  rewrite (run_bind _ _ _ _ _ F).
  erewrite run_bind.
  2:{ eapply run_assign.
      - eapply evals_lift1; [eapply evals_getitem; apply lookup_insert_eq|reflexivity].
      - simpl. rewrite length_fmap, length_app, length_replicate. lia. }
  unfold mret, M_ret, submission_frame. do 3 f_equal. fold n.
  unfold set_col; simpl. rewrite insert_insert_eq. do 2 f_equal.
  - rewrite fmap_app, fmap_replicate. done.
  - subst strs. by rewrite length_fmap.
Qed.

Lemma clip_lower_max (p : Q) :
  ∃ c, clip_lower 0 (Some p) = Some c ∧ c == Qmax 0 p.
Proof.
  unfold clip_lower. destruct (Qle_bool 0 p) eqn:E.
  - exists p. split; [done|]. apply Qle_bool_iff in E. by rewrite Q.max_r.
  - exists 0%Q. split; [done|]. rewrite Q.max_l; [done|].
    apply Qlt_le_weak, Qnot_le_lt. intros H. apply Qle_bool_iff in H. congruence.
Qed.

(** ** The properties of [feature_engineering] *)

(** C2. On every valid frame [feature_engineering] returns a frame with
    the same number of rows, every column of which has that length; the
    columns it does not assign are the input's; row [i] of the output
    carries the raw fields of row [i] of the input, and its derived fields
    are [enrich_record] of these raw fields alone; there is no row beyond
    the input's. *)
Theorem feature_engineering_rows (h : heap) (l : loc) d ts se we te hu wi :
  h !! l = Some d → valid d ts se we te hu wi →
  ∃ l' out,
    feature_engineering l h = (<[l':=out]> h, Ok l')
    ∧ nrows out = nrows d
    ∧ wf out
    ∧ (∀ c, c ∉ written_columns → cols out !! c = cols d !! c)
    ∧ (∀ i, (i < nrows d)%nat →
         ∃ r, raw_record d i = Some r
              ∧ raw_record out i = Some r
              ∧ enriched_record out i = Some (enrich_record r))
    ∧ (∀ i, (nrows d ≤ i)%nat →
         raw_record out i = None ∧ enriched_record out i = None).
Proof.
  intros Hl V.
  destruct (feature_engineering_valid h l _ _ _ _ _ _ _ Hl V)
    as (th & tw & Eth & Etw & Lth & Ltw & Run).
  pose proof (enriched_valid _ _ _ _ _ _ _ th tw V Lth Ltw) as V'.
  eexists _, _. split; [exact Run|].
  split; [done|]. split; [apply V'|].
  split; [intros c; apply enriched_unwritten|]. split.
  - intros i Hi.
    destruct (enriched_rows _ _ _ _ _ _ _ th tw i V Eth Etw Hi) as (r & Hr & He).
    exists r. repeat split; try done.
    destruct (valid_raw_record _ _ _ _ _ _ _ i V Hi)
      as (t & xs & xw & nt & nh & nw & Ht & Hs & Hw & Hte & Hhu & Hwi & R).
    destruct (valid_raw_record _ _ _ _ _ _ _ i V' Hi)
      as (t' & xs' & xw' & nt' & nh' & nw' & Ht' & Hs' & Hw' & Hte' & Hhu' & Hwi' & R').
    rewrite R'. rewrite Hr in R. congruence.
  - intros i Hi. pose proof (valid_length_ts V) as Lts.
    assert (cell (enriched d ts se we te hu wi th tw) "datetime" i = None) as E1.
    { enriched_cell. simpl. rewrite lookup_ge_None_2; [done|lia]. }
    assert (cell (enriched d ts se we te hu wi th tw) "hour" i = None) as E2.
    { enriched_cell. simpl. rewrite list_lookup_fmap, lookup_ge_None_2; [done|lia]. }
    unfold raw_record, enriched_record. by rewrite E1, E2.
Qed.

(** C3. In every row of the frame [feature_engineering] returns,
    [is_rush_hour] is 1 or 0, and it is 1 exactly when [dayofweek < 5] and
    [hour] lies in [7, 9] or in [16, 19], bounds included; so a row with
    [hour = 7] has the flag set on [dayofweek = 4] and cleared on
    [dayofweek = 5]. *)
Theorem is_rush_hour_iff (h : heap) (l : loc) d ts se we te hu wi i :
  h !! l = Some d → valid d ts se we te hu wi → (i < nrows d)%nat →
  ∃ l' out e,
    feature_engineering l h = (<[l':=out]> h, Ok l')
    ∧ enriched_record out i = Some e
    ∧ (e_is_rush_hour e = 1 ∨ e_is_rush_hour e = 0)
    ∧ (e_is_rush_hour e = 1
       ↔ e_dayofweek e < 5 ∧ (7 ≤ e_hour e ≤ 9 ∨ 16 ≤ e_hour e ≤ 19))
    ∧ (e_hour e = 7 → e_dayofweek e = 4 → e_is_rush_hour e = 1)
    ∧ (e_hour e = 7 → e_dayofweek e = 5 → e_is_rush_hour e = 0).
Proof.
  intros Hl V Hi.
  destruct (feature_engineering_row h l _ _ _ _ _ _ _ i Hl V Hi)
    as (l' & out & r & Run & _ & He).
  exists l', out, (enrich_record r). split; [done|]. split; [done|].
  simpl. destruct (rush_flag_spec (r_timestamp r)) as [B R].
  repeat split; try tauto; lia.
Qed.

(** C10. No row of the frame [feature_engineering] returns has both
    [is_rush_hour] and [is_weekend] set: the first needs [dayofweek < 5],
    the second is set exactly when [dayofweek >= 5]. *)
Theorem rush_hour_weekend_exclusive (h : heap) (l : loc) d ts se we te hu wi i :
  h !! l = Some d → valid d ts se we te hu wi → (i < nrows d)%nat →
  ∃ l' out e,
    feature_engineering l h = (<[l':=out]> h, Ok l')
    ∧ enriched_record out i = Some e
    ∧ (e_is_weekend e = 1 ↔ 5 ≤ e_dayofweek e)
    ∧ (e_is_rush_hour e = 1 → e_dayofweek e < 5)
    ∧ ¬ (e_is_rush_hour e = 1 ∧ e_is_weekend e = 1).
Proof.
  intros Hl V Hi.
  destruct (feature_engineering_row h l _ _ _ _ _ _ _ i Hl V Hi)
    as (l' & out & r & Run & _ & He).
  exists l', out, (enrich_record r). split; [done|]. split; [done|].
  simpl. destruct (rush_flag_spec (r_timestamp r)) as [_ R].
  pose proof (weekend_flag_spec (r_timestamp r)) as K.
  repeat split; try tauto; lia.
Qed.

(** C9. A row whose humidity is exactly 0 gets no [humidity_bin], and a
    row whose windspeed is exactly 0 gets no [windspeed_bin]: the cell is
    missing, it is not the label [low]. *)
Theorem zero_humidity_windspeed_unbinned (h : heap) (l : loc) d ts se we te hu wi i :
  h !! l = Some d → valid d ts se we te hu wi → (i < nrows d)%nat →
  ∃ l' out r e,
    feature_engineering l h = (<[l':=out]> h, Ok l')
    ∧ raw_record d i = Some r
    ∧ enriched_record out i = Some e
    ∧ (∀ q, float_of_num (r_humidity r) = Some q → q == 0 →
         e_humidity_bin e = None ∧ e_humidity_bin e ≠ Some "low")
    ∧ (∀ q, float_of_num (r_windspeed r) = Some q → q == 0 →
         e_windspeed_bin e = None ∧ e_windspeed_bin e ≠ Some "low").
Proof.
  intros Hl V Hi.
  destruct (feature_engineering_row h l _ _ _ _ _ _ _ i Hl V Hi)
    as (l' & out & r & Run & Hr & He).
  exists l', out, r, (enrich_record r). repeat (split; [done|]).
  simpl. split; intros q -> Hq.
  - unfold humidity_bin, humidity_bins.
    rewrite pd_cut_lowest; [done|]. rewrite Hq. apply Qle_refl.
  - unfold windspeed_bin, windspeed_bins.
    rewrite pd_cut_lowest; [done|]. rewrite Hq. apply Qle_refl.
Qed.

(** C5, as the code has it.  [feature_engineering] makes no check of the
    values of [season] and [weather]: on every valid frame, whatever these
    values are, it returns, and [weather_season] is the decimal text of
    [weather], an underscore and the decimal text of [season]. *)
Theorem feature_engineering_no_range_check (h : heap) (l : loc) d ts se we te hu wi :
  h !! l = Some d → valid d ts se we te hu wi →
  ∃ l' out,
    feature_engineering l h = (<[l':=out]> h, Ok l')
    ∧ ∀ i, (i < nrows d)%nat →
        ∃ r e, raw_record d i = Some r
               ∧ enriched_record out i = Some e
               ∧ e_weather_season e
                 = Some ((pretty (r_weather r) +:+ "_") +:+ pretty (r_season r)).
Proof.
  intros Hl V.
  destruct (feature_engineering_valid h l _ _ _ _ _ _ _ Hl V)
    as (th & tw & Eth & Etw & _ & _ & Run).
  eexists _, _. split; [exact Run|]. intros i Hi.
  destruct (enriched_rows _ _ _ _ _ _ _ th tw i V Eth Etw Hi) as (r & Hr & He).
  by exists r, (enrich_record r).
Qed.

(** C7. [feature_engineering] has no side effect on its argument: whatever
    the call does (return or raise), every frame that existed before the
    call, the argument among them, holds the same columns after it; the
    frame it returns is a new object. *)
Theorem feature_engineering_no_side_effect (h : heap) (l l0 : loc) (d0 : DataFrame) :
  h !! l0 = Some d0 →
  (feature_engineering l h).1 !! l0 = Some d0
  ∧ ∀ l', (feature_engineering l h).2 = Ok l' → h !! l' = None.
Proof.
  intros H0. remember (feature_engineering l h) as r eqn:Er.
  unfold feature_engineering in Er.
  unfold mbind at 1 in Er. unfold M_bind at 1 in Er. unfold copy at 1 in Er.
  destruct (h !! l) as [d|] eqn:Hl; [|by subst r].
  set (l' := fresh (dom h)) in Er.
  assert (l0 ≠ l') as N.
  { intros E. rewrite E in H0. unfold l' in H0. by rewrite fresh_loc_None in H0. }
  match type of Er with _ = ?k _ =>
    assert (writes_only l' k ∧ returns_only l' k) as [Hw Hr] end.
  { split.
    - apply writes_only_bind; [auto with writes|]. intros dt.
      apply writes_only_bind; [destruct (is_datetime64 dt); auto 6 with writes|].
      intros _.
      repeat (apply writes_only_bind; [auto 8 with writes|]; intros _).
      apply writes_only_ret.
    - repeat (apply returns_only_bind; intros ?). apply returns_only_ret. }
  subst r. split.
  - rewrite (Hw _ l0 N). by rewrite lookup_insert_ne.
  - intros l1 E. rewrite (Hr _ _ E). apply fresh_loc_None.
Qed.

(** C8. Applying [feature_engineering] to the frame it returned gives a
    frame with the same columns: every derived column is computed again to
    the value it had. *)
Theorem feature_engineering_idempotent (h : heap) (l : loc) d ts se we te hu wi :
  h !! l = Some d → valid d ts se we te hu wi →
  ∃ l1 out l2,
    feature_engineering l h = (<[l1:=out]> h, Ok l1)
    ∧ feature_engineering l1 (<[l1:=out]> h) = (<[l2:=out]> (<[l1:=out]> h), Ok l2)
    ∧ l2 ≠ l1.
Proof.
  intros Hl V.
  destruct (feature_engineering_valid h l _ _ _ _ _ _ _ Hl V)
    as (th & tw & Eth & Etw & Lth & Ltw & Run).
  set (out := enriched d ts se we te hu wi th tw) in *.
  set (l1 := fresh (dom h)) in *.
  pose proof (enriched_valid _ _ _ _ _ _ _ th tw V Lth Ltw) as V'. fold out in V'.
  exists l1, out, (fresh (dom (<[l1:=out]> h))). split; [done|]. split.
  - rewrite (feature_engineering_run _ l1 out ts se we te hu wi th tw);
      [|apply lookup_insert_eq|done..].
    subst out. by rewrite enriched_idem.
  - intros E. pose proof (fresh_loc_None (<[l1:=out]> h)) as F.
    rewrite E, lookup_insert_eq in F. done.
Qed.

(** C4, as the code has it.  The bins of [temp], [humidity] and
    [windspeed] are open on the left and closed on the right, the last one
    like the others: a value gets the label of bin [k] exactly when it lies
    above edge [k] and at or below edge [k + 1].  So a value on an inner
    edge goes to the lower of the two bins around it, and a value on the
    lowest edge gets no bin.  [temp = 10.0] is [cold] and [temp = 50.0] is
    [hot]. *)
Theorem bins_left_open_right_closed :
  (∀ bins labels x lab,
     (bins, labels) ∈ [(temp_bins, temp_labels); (humidity_bins, humidity_labels);
                       (windspeed_bins, windspeed_labels)] →
     pd_cut bins labels (Some x) = Some lab
     ↔ ∃ k lo hi, labels !! k = Some lab ∧ bins !! k = Some lo
                  ∧ bins !! S k = Some hi ∧ (lo < x)%Q ∧ (x <= hi)%Q)
  ∧ temp_bin (Some (10 # 1)%Q) = Some "cold"
  ∧ temp_bin (Some (50 # 1)%Q) = Some "hot"
  ∧ temp_bin (Some (0 # 1)%Q) = Some "very_cold"
  ∧ temp_bin (Some (-20 # 1)%Q) = None
  ∧ humidity_bin (Some (0 # 1)%Q) = None
  ∧ windspeed_bin (Some (0 # 1)%Q) = None.
Proof.
  split; [|by vm_compute].
  intros bins labels x lab Hb. apply pd_cut_iff.
  repeat (apply elem_of_cons in Hb as [[= -> ->]|Hb]);
    [| | |by apply elem_of_nil in Hb]; apply sorted_bins.
Qed.

(** ** The properties of the submission cells *)

(** C1. For timestamps and as many finite predictions, a submission cell
    returns a new frame with one row per prediction, in the order of the
    input: row [i] holds the text of timestamp [i] and a count equal to
    [max(0, p)] for prediction [i].  The predictions [-5.2, 0.0, 42.7]
    give the counts [0.0, 0.0, 42.7]. *)
Theorem submission_counts (h : heap) (test : loc) d (ts : list Timestamp) (ps : list Q) :
  h !! test = Some d → cols d !! "datetime" = Some (DatetimeS ts) →
  length ts = length ps →
  ∃ sub out cs,
    advanced_submission test (FloatS (Some <$> ps)) h = (<[sub:=out]> h, Ok sub)
    ∧ initial_submission test (FloatS (Some <$> ps)) h = (<[sub:=out]> h, Ok sub)
    ∧ h !! sub = None
    ∧ nrows out = length ps
    ∧ cols out !! "datetime"
      = Some (ObjectS ((λ t, Some (format_datetime t)) <$> ts))
    ∧ cols out !! "count" = Some (FloatS (Some <$> cs))
    ∧ Forall2 (λ c p, c == Qmax 0 p) cs ps
    ∧ (ps = [-52 # 10; 0; 427 # 10]%Q → cs = [0; 0; 427 # 10]%Q).
Proof.
  intros Hl Hd L.
  pose proof (submission_cell_run h test d ts (Some <$> ps) Hl Hd) as Run.
  exists (fresh (dom h)), (submission_frame ts (Some <$> ps)),
    ((λ p, if Qle_bool 0 p then p else 0%Q) <$> ps).
  split; [done|]. split; [done|]. split; [apply fresh_loc_None|].
  unfold submission_frame. rewrite length_fmap, L, Nat.max_id, Nat.sub_diag.
  simpl. rewrite !app_nil_r. split; [done|].
  split; [by rewrite lookup_insert_ne|].
  split.
  - rewrite lookup_insert_eq. do 2 f_equal. rewrite <- !list_fmap_compose.
    apply list_fmap_ext. intros _ p _. simpl. by destruct (Qle_bool 0 p).
  - split; [|by intros ->].
    apply Forall2_fmap_l, Forall_Forall2_diag, Forall_forall. intros p _.
    destruct (clip_lower_max p) as (c & E & Hc). simpl in E.
    unfold compose. by destruct (Qle_bool 0 p); injection E as <-.
Qed.

(** C6, as the code has it.  A submission cell makes no check of the two
    lengths and raises nothing when they differ: it returns a frame of
    [max(len(timestamps), len(predictions))] rows, in which row [i] holds
    the text of timestamp [i] and the clipped prediction [i], and a
    missing value where the shorter input has no element [i]. *)
Theorem submission_no_length_check (h : heap) (test : loc) d
    (ts : list Timestamp) (ps : list float) :
  h !! test = Some d → cols d !! "datetime" = Some (DatetimeS ts) →
  ∃ sub out,
    advanced_submission test (FloatS ps) h = (<[sub:=out]> h, Ok sub)
    ∧ nrows out = Nat.max (length ts) (length ps)
    ∧ cols out !! "datetime"
      = Some (ObjectS (((λ t, Some (format_datetime t)) <$> ts)
                       ++ replicate (nrows out - length ts) None))
    ∧ cols out !! "count"
      = Some (FloatS ((clip_lower 0 <$> ps)
                      ++ replicate (nrows out - length ps) None)).
Proof.
  intros Hl Hd.
  exists (fresh (dom h)), (submission_frame ts ps).
  split; [by apply (submission_cell_run h test d)|].
  unfold submission_frame; simpl. split; [done|].
  split; [by rewrite lookup_insert_ne|by rewrite lookup_insert_eq].
Qed.

(** * Further properties *)

(** ** Runs that raise, runs on any heap *)

Lemma run_bind_raise {A B} (m : M A) (k : A → M B) (h h' : heap) (e : exn) :
  m h = (h', Raise e) → (m ≫= k) h = (h', Raise e).
Proof. intros E. unfold mbind, M_bind. by rewrite E. Qed.

Lemma evals_getitem_at (l : loc) (c : string) (h : heap) d s :
  h !! l = Some d → cols d !! c = Some s → evals (getitem l c) h s.
Proof. intros Hl E. unfold evals, getitem. by rewrite Hl, E. Qed.

Lemma run_assign_at (l : loc) c e (h : heap) d s :
  h !! l = Some d → evals e h s → Series_len s = nrows d →
  assign l c e h = (<[l:=set_col c s d]> h, Ok ()).
Proof.
  unfold evals, assign. intros Hl E L. rewrite (run_bind _ _ _ _ _ E).
  unfold setitem. by rewrite Hl, decide_True.
Qed.

Lemma raises_getitem (l : loc) (c : string) (h : heap) d :
  h !! l = Some d → cols d !! c = None → raises (getitem l c) h (KeyError c).
Proof. intros Hl E. unfold raises, getitem. by rewrite Hl, E. Qed.

Lemma raises_lift1 f e (h : heap) x : raises e h x → raises (lift1 f e) h x.
Proof. unfold raises, lift1. intros E. by rewrite (run_bind_raise _ _ _ _ _ E). Qed.

Lemma raises_lift1_op f e (h : heap) s x :
  evals e h s → f s = Raise x → raises (lift1 f e) h x.
Proof.
  unfold raises, evals, lift1. intros E F.
  rewrite (run_bind _ _ _ _ _ E). unfold lift. by rewrite F.
Qed.

Lemma raises_lift2_l f e1 e2 (h : heap) x :
  raises e1 h x → raises (lift2 f e1 e2) h x.
Proof. unfold raises, lift2. intros E. by rewrite (run_bind_raise _ _ _ _ _ E). Qed.

Lemma raises_lift2_r f e1 e2 (h : heap) s1 x :
  evals e1 h s1 → raises e2 h x → raises (lift2 f e1 e2) h x.
Proof.
  unfold raises, evals, lift2. intros E1 E2.
  by rewrite (run_bind _ _ _ _ _ E1), (run_bind_raise _ _ _ _ _ E2).
Qed.

Lemma raises_assign l c e (h : heap) x :
  raises e h x → assign l c e h = (h, Raise x).
Proof. unfold raises, assign. intros E. by rewrite (run_bind_raise _ _ _ _ _ E). Qed.

(** The start of a call: the copy and the conversion of [datetime]. *)
Lemma feature_engineering_start (h : heap) (l : loc) d s ts
    (k : loc → M loc) :
  h !! l = Some d → wf d →
  cols d !! "datetime" = Some s → datetime_values s = Some ts →
  (df ← copy l;
   dt ← getitem df "datetime";
   (if is_datetime64 dt then mret ()
    else assign df "datetime" (lift1 to_datetime (getitem df "datetime")));;
   k df) h
  = k (fresh (dom h))
      (<[fresh (dom h):=set_col "datetime" (DatetimeS ts) d]> h).
Proof.
  intros Hl W Es D.
  rewrite (run_bind _ _ _ _ _ (run_copy _ _ _ Hl)).
  set (l' := fresh (dom h)).
  rewrite (run_bind _ _ _ _ _ (evals_getitem l' _ h d s Es)).
  erewrite run_bind; [reflexivity|].
  destruct (is_datetime64 s) eqn:Ed.
  - rewrite (datetime_values_not_datetime64 _ _ D Ed) in Es.
    unfold set_col. rewrite (insert_id _ _ _ Es). by destruct d.
  - apply run_assign.
    + eapply evals_lift1; [by apply evals_getitem|]. by apply to_datetime_values.
    + simpl. rewrite (datetime_values_length _ _ D). by apply (wf_lookup d "datetime").
Qed.

Lemma feature_engineering_no_datetime (h : heap) (l : loc) d :
  h !! l = Some d → cols d !! "datetime" = None →
  (feature_engineering l h).2 = Raise (KeyError "datetime").
Proof.
  intros Hl E. unfold feature_engineering.
  rewrite (run_bind _ _ _ _ _ (run_copy _ _ _ Hl)).
  erewrite run_bind_raise; [done|].
  apply raises_getitem with d; [apply lookup_insert_eq|done].
Qed.

(** X2. A [datetime] column of strings one of which does not parse makes
    the call raise [ValueError]; no derived column is computed. *)
Theorem feature_engineering_bad_timestamp (h : heap) (l : loc) d xs strs :
  h !! l = Some d → cols d !! "datetime" = Some (ObjectS xs) →
  mapM id xs = Some strs → mapM parse_datetime strs = None →
  feature_engineering l h = (<[fresh (dom h):=d]> h, Raise ValueError).
Proof.
  intros Hl E E1 E2. unfold feature_engineering.
  rewrite (run_bind _ _ _ _ _ (run_copy _ _ _ Hl)).
  rewrite (run_bind _ _ _ _ _ (evals_getitem _ _ h d _ E)). simpl.
  erewrite run_bind_raise; [done|].
  apply raises_assign. eapply raises_lift1_op; [by apply evals_getitem|].
  simpl. by rewrite E1, E2.
Qed.

Ltac raise_at_getitem Hc :=
  eapply raises_getitem;
  [ apply lookup_insert_eq
  | cbn [cols set_col]; rewrite !lookup_insert_ne by discriminate; exact Hc ].

Ltac take_column Hpre s Es Ps :=
  apply Forall_cons in Hpre as [(s & Es & Ps) Hpre]; simpl in Es, Ps.

(** X1. When the frame lacks one of the columns the function reads, the
    call raises [KeyError] for the first of them in reading order
    ([datetime], [weather], [season], [temp], [humidity], [windspeed]), the
    columns read before it being as the function needs them. *)
Theorem feature_engineering_missing_column (h : heap) (l : loc) d pre c P post :
  h !! l = Some d → wf d →
  required_columns = pre ++ (c, P) :: post →
  Forall (λ cp, ∃ s, cols d !! cp.1 = Some s ∧ cp.2 s) pre →
  cols d !! c = None →
  (feature_engineering l h).2 = Raise (KeyError c).
Proof.
  intros Hl W Hreq Hpre Hc. unfold required_columns in Hreq.
  destruct pre as [|[? ?] pre]; simplify_eq/=.
  { by apply feature_engineering_no_datetime with d. }
  take_column Hpre s Es Ps. destruct Ps as [ts D].
  assert (length ts = nrows d) as Lts.
  { rewrite (datetime_values_length _ _ D). by apply (wf_lookup d "datetime"). }
  unfold feature_engineering.
  rewrite (feature_engineering_start h l d s ts _ Hl W Es D).
  set (l' := fresh (dom h)).
  do 8 step.
  destruct pre as [|[? ?] pre]; simplify_eq/=.
  { erewrite run_bind_raise; [done|]. apply raises_assign.
    apply raises_lift2_l, raises_lift1, raises_lift1. raise_at_getitem Hc. }
  take_column Hpre sw Ew Pw. destruct sw as [| |we| | |]; try done.
  pose proof (wf_lookup d "weather" _ W Ew) as Lwe. simpl in Lwe.
  destruct pre as [|[? ?] pre]; simplify_eq/=.
  { erewrite run_bind_raise; [done|]. apply raises_assign.
    eapply raises_lift2_r; [eval_expr|]. apply raises_lift1. raise_at_getitem Hc. }
  take_column Hpre ss Ese Pse. destruct ss as [| |se| | |]; try done.
  pose proof (wf_lookup d "season" _ W Ese) as Lse. simpl in Lse.
  step.
  destruct pre as [|[? ?] pre]; simplify_eq/=.
  { erewrite run_bind_raise; [done|]. apply raises_assign.
    apply raises_lift1. raise_at_getitem Hc. }
  take_column Hpre te Ete Nte.
  pose proof (wf_lookup d "temp" _ W Ete) as Lte.
  step.
  destruct pre as [|[? ?] pre]; simplify_eq/=.
  { erewrite run_bind_raise; [done|]. apply raises_assign.
    apply raises_lift1. raise_at_getitem Hc. }
  take_column Hpre hu Ehu Nhu.
  pose proof (wf_lookup d "humidity" _ W Ehu) as Lhu.
  step.
  destruct pre as [|[? ?] pre]; simplify_eq/=.
  { erewrite run_bind_raise; [done|]. apply raises_assign.
    apply raises_lift1. raise_at_getitem Hc. }
  destruct pre; simplify_eq/=.
Qed.

(** ** The columns and the labels of the result *)

Lemma series_mul_is_numeric a b s :
  series_mul fmul a b = Ok s → is_numeric s.
Proof.
  unfold series_mul. case_decide; [|done].
  destruct a, b; try done; by intros [= <-].
Qed.

(** X3. The frame returned on a valid frame has the columns of the input
    and the fifteen assigned ones, no other; [datetime] is converted, the
    calendar fields and the two flags are integer columns, [weather_season]
    is a string column without a missing value, the three bins are
    categories and the two products numeric columns.  [time_of_day] is a
    string column without a missing value when the frame has a row; on a
    frame without rows it is an empty integer column, the dtype of [hour],
    because [apply] does not call the lambda there. *)
Theorem feature_engineering_schema (h : heap) (l : loc) d ts se we te hu wi :
  h !! l = Some d → valid d ts se we te hu wi →
  ∃ l' out,
    feature_engineering l h = (<[l':=out]> h, Ok l')
    ∧ dom (cols out) = dom (cols d) ∪ list_to_set written_columns
    ∧ cols out !! "datetime" = Some (DatetimeS ts)
    ∧ (∀ c, c ∈ ["hour"; "day"; "month"; "year"; "dayofweek";
                 "is_rush_hour"; "is_weekend"] →
         ∃ xs, cols out !! c = Some (IntS xs))
    ∧ (∃ xs, cols out !! "weather_season" = Some (ObjectS xs) ∧ Forall is_Some xs)
    ∧ ((0 < nrows d)%nat →
         ∃ xs, cols out !! "time_of_day" = Some (ObjectS xs) ∧ Forall is_Some xs)
    ∧ (nrows d = 0%nat → cols out !! "time_of_day" = Some (IntS []))
    ∧ (∀ c, c ∈ ["temp_bin"; "humidity_bin"; "windspeed_bin"] →
         ∃ xs, cols out !! c = Some (CategoryS xs))
    ∧ (∀ c, c ∈ ["temp_humidity"; "temp_windspeed"] →
         ∃ s, cols out !! c = Some s ∧ is_numeric s).
Proof.
  intros Hl V.
  destruct (feature_engineering_valid h l _ _ _ _ _ _ _ Hl V)
    as (th & tw & Eth & Etw & Lth & Ltw & Run).
  pose proof (valid_length_ts V) as Lts.
  destruct V as [W (s & Es & D) Ese Ewe [Ete Nte] [Ehu Nhu] [Ewi Nwi]].
  eexists _, _. split; [exact Run|]. unfold enriched. cbn [cols set_col].
  split.
  { rewrite !dom_insert_L. unfold written_columns. simpl.
    apply set_eq. intros x.
    rewrite !elem_of_union, !elem_of_singleton, elem_of_empty. tauto. }
  split; [lookup_col|].
  split.
  { intros c Hc. repeat (apply elem_of_cons in Hc as [->|Hc]);
      [..|by apply elem_of_nil in Hc]; eexists; lookup_col. }
  split.
  { eexists. split; [lookup_col|]. apply Forall_forall. intros x Hx.
    apply elem_of_lookup_zip_with in Hx as (i & w & s' & -> & _ & _). by eexists. }
  split.
  { intros Hn. destruct ts as [|t ts]; [simpl in Lts; lia|].
    eexists. split; [lookup_col|]. apply Forall_fmap, Forall_true. by eexists. }
  split.
  { intros Hn. destruct ts as [|t ts]; [lookup_col|simpl in Lts; lia]. }
  split.
  { intros c Hc. repeat (apply elem_of_cons in Hc as [->|Hc]);
      [..|by apply elem_of_nil in Hc].
    - destruct te; try done; eexists; lookup_col.
    - destruct hu; try done; eexists; lookup_col.
    - destruct wi; try done; eexists; lookup_col. }
  intros c Hc. repeat (apply elem_of_cons in Hc as [->|Hc]);
    [..|by apply elem_of_nil in Hc]; eexists; (split; [lookup_col|]).
  - by apply (series_mul_is_numeric te hu).
  - by apply (series_mul_is_numeric te wi).
Qed.

Lemma hour_of_range t : 0 ≤ hour_of t ≤ 23.
Proof. unfold hour_of. pose proof (Z.mod_pos_bound (t / ns_per_hour) 24). lia. Qed.

Lemma time_of_day_spec x :
  (time_of_day x = "morning" ↔ 6 ≤ x < 12)
  ∧ (time_of_day x = "afternoon" ↔ 12 ≤ x < 18)
  ∧ (time_of_day x = "evening" ↔ 18 ≤ x < 22)
  ∧ (time_of_day x = "night" ↔ x < 6 ∨ 22 ≤ x).
Proof.
  unfold time_of_day. case_tests; simpl; repeat split; intros; try done; lia.
Qed.

(** X4. In every row of the result [time_of_day] is one of four labels, and
    the label follows the hour of the row: [morning] for 6 to 11,
    [afternoon] for 12 to 17, [evening] for 18 to 21, [night] for 22, 23 and
    0 to 5. *)
Theorem time_of_day_bands (h : heap) (l : loc) d ts se we te hu wi i :
  h !! l = Some d → valid d ts se we te hu wi → (i < nrows d)%nat →
  ∃ l' out e,
    feature_engineering l h = (<[l':=out]> h, Ok l')
    ∧ enriched_record out i = Some e
    ∧ 0 ≤ e_hour e ≤ 23
    ∧ e_time_of_day e
      ∈ [Some "morning"; Some "afternoon"; Some "evening"; Some "night"]
    ∧ (e_time_of_day e = Some "morning" ↔ 6 ≤ e_hour e ≤ 11)
    ∧ (e_time_of_day e = Some "afternoon" ↔ 12 ≤ e_hour e ≤ 17)
    ∧ (e_time_of_day e = Some "evening" ↔ 18 ≤ e_hour e ≤ 21)
    ∧ (e_time_of_day e = Some "night" ↔ e_hour e ≤ 5 ∨ 22 ≤ e_hour e).
Proof.
  intros Hl V Hi.
  destruct (feature_engineering_row h l _ _ _ _ _ _ _ i Hl V Hi)
    as (l' & out & r & Run & _ & He).
  exists l', out, (enrich_record r). split; [done|]. split; [done|]. simpl.
  pose proof (hour_of_range (r_timestamp r)) as R.
  destruct (time_of_day_spec (hour_of (r_timestamp r))) as (M & A & E & N).
  split; [done|]. split.
  { unfold time_of_day. case_tests; simpl; set_unfold; tauto. }
  split; [split; intros K; [injection K as K; apply M in K; lia|f_equal; apply M; lia]|].
  split; [split; intros K; [injection K as K; apply A in K; lia|f_equal; apply A; lia]|].
  split; [split; intros K; [injection K as K; apply E in K; lia|f_equal; apply E; lia]|].
  split; intros K; [injection K as K; apply N in K; lia|f_equal; apply N; lia].
Qed.

(** X5. A rush hour row is never a [night] row: with the flag set the row
    is [morning] (hours 7 to 9), [afternoon] (16, 17) or [evening] (18,
    19). *)
Theorem rush_hour_time_of_day (h : heap) (l : loc) d ts se we te hu wi i :
  h !! l = Some d → valid d ts se we te hu wi → (i < nrows d)%nat →
  ∃ l' out e,
    feature_engineering l h = (<[l':=out]> h, Ok l')
    ∧ enriched_record out i = Some e
    ∧ (e_is_rush_hour e = 1 →
         (7 ≤ e_hour e ≤ 9 ∧ e_time_of_day e = Some "morning")
         ∨ (16 ≤ e_hour e ≤ 17 ∧ e_time_of_day e = Some "afternoon")
         ∨ (18 ≤ e_hour e ≤ 19 ∧ e_time_of_day e = Some "evening"))
    ∧ (e_time_of_day e = Some "night" → e_is_rush_hour e = 0).
Proof.
  intros Hl V Hi.
  destruct (feature_engineering_row h l _ _ _ _ _ _ _ i Hl V Hi)
    as (l' & out & r & Run & _ & He).
  exists l', out, (enrich_record r). split; [done|]. split; [done|]. simpl.
  destruct (rush_flag_spec (r_timestamp r)) as [B R].
  destruct (time_of_day_spec (hour_of (r_timestamp r))) as (M & A & E & N).
  split.
  - intros K. apply R in K as [_ K].
    assert (7 ≤ hour_of (r_timestamp r) ≤ 9 ∨ 16 ≤ hour_of (r_timestamp r) ≤ 17
            ∨ 18 ≤ hour_of (r_timestamp r) ≤ 19) as [K'|[K'|K']] by lia.
    + left. split; [done|]. f_equal. apply M. lia.
    + right; left. split; [done|]. f_equal. apply A. lia.
    + right; right. split; [done|]. f_equal. apply E. lia.
  - intros K. injection K as K. apply N in K.
    destruct B as [B|B]; [|done]. apply R in B. lia.
Qed.

(** ** Which values get no bin *)

Ltac case_edges :=
  repeat match goal with
         | |- context [Qlt_le_dec ?b ?x] => destruct (Qlt_le_dec b x)
         end.

Lemma temp_bin_None x :
  temp_bin x = None ↔ x = None ∨ ∃ q, x = Some q ∧ (q <= -20 # 1 ∨ 50 # 1 < q)%Q.
Proof.
  destruct x as [q|]; [|split; [by left|done]].
  unfold temp_bin, temp_bins, pd_cut. simpl. case_edges; simpl;
    (split; [intros K; first [discriminate K|right; exists q; split; [done|lra]]
            |intros [K|(q' & [= <-] & K)];
             [discriminate K|first [done|exfalso; lra]]]).
Qed.

Lemma humidity_bin_None x :
  humidity_bin x = None ↔ x = None ∨ ∃ q, x = Some q ∧ (q <= 0 ∨ 100 # 1 < q)%Q.
Proof.
  destruct x as [q|]; [|split; [by left|done]].
  unfold humidity_bin, humidity_bins, pd_cut. simpl. case_edges; simpl;
    (split; [intros K; first [discriminate K|right; exists q; split; [done|lra]]
            |intros [K|(q' & [= <-] & K)];
             [discriminate K|first [done|exfalso; lra]]]).
Qed.

Lemma windspeed_bin_None x :
  windspeed_bin x = None ↔ x = None ∨ ∃ q, x = Some q ∧ (q <= 0 ∨ 100 # 1 < q)%Q.
Proof.
  destruct x as [q|]; [|split; [by left|done]].
  unfold windspeed_bin, windspeed_bins, pd_cut. simpl. case_edges; simpl;
    (split; [intros K; first [discriminate K|right; exists q; split; [done|lra]]
            |intros [K|(q' & [= <-] & K)];
             [discriminate K|first [done|exfalso; lra]]]).
Qed.

(** X6. A row gets no [temp_bin] exactly when its temperature is missing,
    at or below -20 or above 50; no [humidity_bin] exactly when its
    humidity is missing, at or below 0 or above 100; no [windspeed_bin]
    exactly when its windspeed is missing, at or below 0 or above 100.
    Every other value gets one of the labels. *)
Theorem bins_missing_iff (h : heap) (l : loc) d ts se we te hu wi i :
  h !! l = Some d → valid d ts se we te hu wi → (i < nrows d)%nat →
  ∃ l' out r e,
    feature_engineering l h = (<[l':=out]> h, Ok l')
    ∧ raw_record d i = Some r
    ∧ enriched_record out i = Some e
    ∧ (e_temp_bin e = None
       ↔ float_of_num (r_temp r) = None
         ∨ ∃ q, float_of_num (r_temp r) = Some q ∧ (q <= -20 # 1 ∨ 50 # 1 < q)%Q)
    ∧ (e_humidity_bin e = None
       ↔ float_of_num (r_humidity r) = None
         ∨ ∃ q, float_of_num (r_humidity r) = Some q ∧ (q <= 0 ∨ 100 # 1 < q)%Q)
    ∧ (e_windspeed_bin e = None
       ↔ float_of_num (r_windspeed r) = None
         ∨ ∃ q, float_of_num (r_windspeed r) = Some q ∧ (q <= 0 ∨ 100 # 1 < q)%Q)
    ∧ (∀ lab, e_temp_bin e = Some lab → lab ∈ temp_labels)
    ∧ (∀ lab, e_humidity_bin e = Some lab → lab ∈ humidity_labels)
    ∧ (∀ lab, e_windspeed_bin e = Some lab → lab ∈ windspeed_labels).
Proof.
  intros Hl V Hi.
  destruct (feature_engineering_row h l _ _ _ _ _ _ _ i Hl V Hi)
    as (l' & out & r & Run & Hr & He).
  exists l', out, r, (enrich_record r). repeat (split; [done|]). simpl.
  split; [apply temp_bin_None|]. split; [apply humidity_bin_None|].
  split; [apply windspeed_bin_None|].
  repeat split; intros lab K;
    (destruct (float_of_num _) as [q|]; [|done]);
    apply pd_cut_Some in K as (k & _ & _ & K & _);
    eapply list_elem_of_lookup_2, K.
Qed.

(** ** The joint category *)

Lemma pretty_N_go_free (x : N) (s : string) :
  free_of "_" s → free_of "_" (pretty_N_go x s).
Proof.
  revert s. induction (N.lt_wf_0 x) as [x _ IH]; intros s Hs.
  assert (x = 0 ∨ 0 < x)%N as [->|Hx] by lia.
  - by rewrite pretty_N_go_0.
  - rewrite pretty_N_go_step by done. apply IH.
    { by apply N.div_lt. }
    split; [|done]. unfold pretty_N_char. by repeat case_match.
Qed.

Lemma pretty_Z_free (z : Z) : free_of "_" (pretty z).
Proof.
  assert (∀ p : positive, free_of "_" (pretty p)) as Hp.
  { intros p. unfold pretty, pretty_positive, pretty, pretty_N.
    case_decide; [done|]. by apply pretty_N_go_free. }
  destruct z as [|p|p]; simpl; [done|apply Hp|].
  split; [done|apply Hp].
Qed.

Lemma append_sep_inj (a : Ascii.ascii) (s1 s2 t1 t2 : string) :
  free_of a s1 → free_of a s2 →
  (s1 +:+ String a EmptyString) +:+ t1 = (s2 +:+ String a EmptyString) +:+ t2 →
  s1 = s2 ∧ t1 = t2.
Proof.
  revert s2. induction s1 as [|b s1 IH]; intros [|c s2] F1 F2 E;
    cbn in E, F1, F2; simplify_eq.
  - done.
  - by destruct F2.
  - by destruct F1.
  - destruct F1 as [_ F1], F2 as [_ F2].
    match goal with E : _ = _ |- _ => destruct (IH s2 F1 F2 E) as [-> ->] end. done.
Qed.

Lemma weather_season_of_inj w s w' s' :
  weather_season_of w s = weather_season_of w' s' → w = w' ∧ s = s'.
Proof.
  unfold weather_season_of. intros [= E].
  apply append_sep_inj in E as [Ew Es]; [|apply pretty_Z_free..].
  by apply (inj pretty) in Ew, Es.
Qed.

(** X7. [weather_season] is a joint category: two rows of the result have
    the same [weather_season] exactly when they have the same [weather] and
    the same [season]. *)
Theorem weather_season_joint (h : heap) (l : loc) d ts se we te hu wi i j :
  h !! l = Some d → valid d ts se we te hu wi →
  (i < nrows d)%nat → (j < nrows d)%nat →
  ∃ l' out ri rj ei ej,
    feature_engineering l h = (<[l':=out]> h, Ok l')
    ∧ raw_record d i = Some ri ∧ raw_record d j = Some rj
    ∧ enriched_record out i = Some ei ∧ enriched_record out j = Some ej
    ∧ (e_weather_season ei = e_weather_season ej
       ↔ r_weather ri = r_weather rj ∧ r_season ri = r_season rj).
Proof.
  intros Hl V Hi Hj.
  destruct (feature_engineering_valid h l _ _ _ _ _ _ _ Hl V)
    as (th & tw & Eth & Etw & _ & _ & Run).
  destruct (enriched_rows _ _ _ _ _ _ _ th tw i V Eth Etw Hi) as (ri & Hri & Hei).
  destruct (enriched_rows _ _ _ _ _ _ _ th tw j V Eth Etw Hj) as (rj & Hrj & Hej).
  eexists _, _, ri, rj, _, _. repeat (split; [done|]). simpl. split.
  - apply weather_season_of_inj.
  - by intros [-> ->].
Qed.

(** ** The exploration cells and the engineering cell *)

Lemma convert_at (l : loc) (h : heap) d s ts :
  h !! l = Some d → wf d →
  cols d !! "datetime" = Some s → datetime_values s = Some ts →
  assign l "datetime" (lift1 to_datetime (getitem l "datetime")) h
  = (<[l:=set_col "datetime" (DatetimeS ts) d]> h, Ok ()).
Proof.
  intros Hl W Es D. apply run_assign_at; [done| |].
  - eapply evals_lift1; [by apply evals_getitem_at with d|]. by apply to_datetime_values.
  - simpl. rewrite (datetime_values_length _ _ D). by apply (wf_lookup d "datetime").
Qed.

Lemma field_at (l : loc) (h : heap) d ts c f :
  h !! l = Some d → cols d !! "datetime" = Some (DatetimeS ts) →
  length ts = nrows d →
  assign l c (lift1 (dt_field f) (getitem l "datetime")) h
  = (<[l:=set_col c (IntS (f <$> ts)) d]> h, Ok ()).
Proof.
  intros Hl Es L. apply run_assign_at; [done| |].
  - eapply evals_lift1; [by apply evals_getitem_at with d|done].
  - simpl. by rewrite length_fmap.
Qed.

Ltac heap_eq :=
  apply map_eq; intros ?; rewrite !lookup_insert;
  repeat case_decide; simplify_eq; done.

Lemma hour_cell_run (h : heap) (train test : loc) d1 d2 s1 s2 ts1 ts2 :
  train ≠ test → h !! train = Some d1 → h !! test = Some d2 →
  wf d1 → wf d2 →
  cols d1 !! "datetime" = Some s1 → datetime_values s1 = Some ts1 →
  cols d2 !! "datetime" = Some s2 → datetime_values s2 = Some ts2 →
  hour_cell train test h
  = (<[test:=set_col "hour" (IntS (hour_of <$> ts2))
               (set_col "datetime" (DatetimeS ts2) d2)]>
       (<[train:=set_col "hour" (IntS (hour_of <$> ts1))
                   (set_col "datetime" (DatetimeS ts1) d1)]> h), Ok ()).
Proof.
  intros N H1 H2 W1 W2 E1 D1 E2 D2. unfold hour_cell.
  assert (length ts1 = nrows d1) as L1.
  { rewrite (datetime_values_length _ _ D1). by apply (wf_lookup d1 "datetime"). }
  assert (length ts2 = nrows d2) as L2.
  { rewrite (datetime_values_length _ _ D2). by apply (wf_lookup d2 "datetime"). }
  rewrite (run_bind _ _ _ _ _ (convert_at train h d1 s1 ts1 H1 W1 E1 D1)).
  erewrite run_bind;
    [|apply (convert_at test _ d2 s2 ts2); [by rewrite lookup_insert_ne|done..]].
  erewrite run_bind;
    [|apply (field_at train _ (set_col "datetime" (DatetimeS ts1) d1) ts1);
      [by rewrite lookup_insert_ne, lookup_insert_eq|apply lookup_insert_eq|done]].
  erewrite (field_at test _ (set_col "datetime" (DatetimeS ts2) d2) ts2);
    [|by rewrite lookup_insert_ne, lookup_insert_eq|apply lookup_insert_eq|done].
  f_equal. heap_eq.
Qed.

Lemma dayofweek_cell_run (h : heap) (train test : loc) d1 d2 ts1 ts2 :
  train ≠ test → h !! train = Some d1 → h !! test = Some d2 →
  cols d1 !! "datetime" = Some (DatetimeS ts1) → length ts1 = nrows d1 →
  cols d2 !! "datetime" = Some (DatetimeS ts2) → length ts2 = nrows d2 →
  dayofweek_cell train test h
  = (<[test:=set_col "dayofweek" (IntS (dayofweek_of <$> ts2)) d2]>
       (<[train:=set_col "dayofweek" (IntS (dayofweek_of <$> ts1)) d1]> h), Ok ()).
Proof.
  intros N H1 H2 E1 L1 E2 L2. unfold dayofweek_cell.
  rewrite (run_bind _ _ _ _ _ (field_at train h d1 ts1 _ _ H1 E1 L1)).
  by erewrite (field_at test _ d2 ts2); [|by rewrite lookup_insert_ne|done..].
Qed.

(** X8. The first exploration cell works in place: it allocates nothing,
    and after it the frames [train] and [test] themselves hold the converted
    [datetime] and the new [hour] column, every other column as before;
    running the cell a second time changes nothing. *)
Theorem hour_cell_in_place (h : heap) (train test : loc) d1 d2 s1 s2 ts1 ts2 :
  train ≠ test → h !! train = Some d1 → h !! test = Some d2 →
  wf d1 → wf d2 →
  cols d1 !! "datetime" = Some s1 → datetime_values s1 = Some ts1 →
  cols d2 !! "datetime" = Some s2 → datetime_values s2 = Some ts2 →
  ∃ h' d1' d2',
    hour_cell train test h = (h', Ok ())
    ∧ dom h' = dom h
    ∧ h' !! train = Some d1' ∧ h' !! test = Some d2'
    ∧ (∀ l, l ≠ train → l ≠ test → h' !! l = h !! l)
    ∧ cols d1' !! "datetime" = Some (DatetimeS ts1)
    ∧ cols d1' !! "hour" = Some (IntS (hour_of <$> ts1))
    ∧ cols d2' !! "datetime" = Some (DatetimeS ts2)
    ∧ cols d2' !! "hour" = Some (IntS (hour_of <$> ts2))
    ∧ (∀ c, c ≠ "datetime" → c ≠ "hour" →
         cols d1' !! c = cols d1 !! c ∧ cols d2' !! c = cols d2 !! c)
    ∧ hour_cell train test h' = (h', Ok ()).
Proof.
  intros N H1 H2 W1 W2 E1 D1 E2 D2.
  assert (length ts1 = nrows d1) as L1.
  { rewrite (datetime_values_length _ _ D1). by apply (wf_lookup d1 "datetime"). }
  assert (length ts2 = nrows d2) as L2.
  { rewrite (datetime_values_length _ _ D2). by apply (wf_lookup d2 "datetime"). }
  eexists _, _, _. split; [by apply (hour_cell_run h train test d1 d2 s1 s2 ts1 ts2)|].
  split.
  { rewrite !dom_insert_L. apply elem_of_dom_2 in H1, H2.
    apply set_eq. intros x. rewrite !elem_of_union, !elem_of_singleton.
    split; [intros [->|[->|?]]; done|auto]. }
  split; [by rewrite lookup_insert_ne, lookup_insert_eq|].
  split; [apply lookup_insert_eq|].
  split; [intros l ? ?; by rewrite !lookup_insert_ne|].
  cbn [cols set_col].
  split; [by rewrite lookup_insert_ne, lookup_insert_eq|].
  split; [apply lookup_insert_eq|].
  split; [by rewrite lookup_insert_ne, lookup_insert_eq|].
  split; [apply lookup_insert_eq|].
  split; [intros c ? ?; by rewrite !lookup_insert_ne|].
  set (d1' := set_col "hour" _ (set_col "datetime" _ d1)).
  set (d2' := set_col "hour" _ (set_col "datetime" _ d2)).
  rewrite (hour_cell_run _ train test d1' d2' (DatetimeS ts1) (DatetimeS ts2) ts1 ts2);
    try done.
  - f_equal.
    rewrite (set_col_id "datetime" _ d1'), (set_col_id "hour" _ d1'),
      (set_col_id "datetime" _ d2'), (set_col_id "hour" _ d2');
      [heap_eq|subst d1' d2'; lookup_col..].
  - by rewrite lookup_insert_ne, lookup_insert_eq.
  - apply lookup_insert_eq.
  - subst d1'. repeat (apply wf_set_col; [|simpl; by rewrite ?length_fmap]). done.
  - subst d2'. repeat (apply wf_set_col; [|simpl; by rewrite ?length_fmap]). done.
  - subst d1'. lookup_col.
  - subst d2'. lookup_col.
Qed.

Lemma valid_explored d ts se we te hu wi :
  valid d ts se we te hu wi → valid (explored d ts) ts se we te hu wi.
Proof.
  intros V. pose proof (valid_length_ts V) as Lts.
  destruct V as [W (s & Es & D) Ese Ewe [Ete Nte] [Ehu Nhu] [Ewi Nwi]].
  unfold explored. split.
  - repeat (apply wf_set_col; [|simpl; by rewrite ?length_fmap]). done.
  - exists (DatetimeS ts). split; [lookup_col|done].
  - lookup_col.
  - lookup_col.
  - split; [lookup_col|done].
  - split; [lookup_col|done].
  - split; [lookup_col|done].
Qed.

Lemma enriched_explored d ts se we te hu wi th tw :
  enriched (explored d ts) ts se we te hu wi th tw
  = enriched d ts se we te hu wi th tw.
Proof.
  unfold enriched, explored, set_col. simpl. f_equal.
  apply map_eq. intros c. rewrite !lookup_insert.
  repeat case_decide; simplify_eq; done.
Qed.

Lemma engineer_cell_run (h : heap) (train test : loc)
    d1 ts1 se1 we1 te1 hu1 wi1 th1 tw1 d2 ts2 se2 we2 te2 hu2 wi2 th2 tw2 :
  h !! train = Some d1 → h !! test = Some d2 →
  valid d1 ts1 se1 we1 te1 hu1 wi1 → valid d2 ts2 se2 we2 te2 hu2 wi2 →
  series_mul fmul te1 hu1 = Ok th1 → series_mul fmul te1 wi1 = Ok tw1 →
  series_mul fmul te2 hu2 = Ok th2 → series_mul fmul te2 wi2 = Ok tw2 →
  let out1 := enriched d1 ts1 se1 we1 te1 hu1 wi1 th1 tw1 in
  let out2 := enriched d2 ts2 se2 we2 te2 hu2 wi2 th2 tw2 in
  let l1 := fresh (dom h) in
  let l2 := fresh (dom (<[l1:=out1]> h)) in
  engineer_cell train test h = (<[l2:=out2]> (<[l1:=out1]> h), Ok (l1, l2)).
Proof.
  intros H1 H2 V1 V2 A1 B1 A2 B2 out1 out2 l1 l2. unfold engineer_cell.
  rewrite (run_bind _ _ _ _ _
             (feature_engineering_run h train d1 _ _ _ _ _ _ th1 tw1 H1 V1 A1 B1)).
  fold out1 l1.
  assert (<[l1:=out1]> h !! test = Some d2) as H2'.
  { rewrite lookup_insert_ne; [done|]. intros E. subst l1.
    rewrite <- E, fresh_loc_None in H2. done. }
  by rewrite (run_bind _ _ _ _ _
                (feature_engineering_run _ test d2 _ _ _ _ _ _ th2 tw2 H2' V2 A2 B2)).
Qed.

(** X9. The engineering cell returns two new, distinct frames and leaves
    [train] and [test] as they are; the frame bound to [test_fe] is the
    frame [feature_engineering(test)] returns on its own, so nothing of the
    training set reaches it. *)
Theorem engineer_cell_independent (h : heap) (train test : loc)
    d1 ts1 se1 we1 te1 hu1 wi1 d2 ts2 se2 we2 te2 hu2 wi2 :
  h !! train = Some d1 → h !! test = Some d2 →
  valid d1 ts1 se1 we1 te1 hu1 wi1 → valid d2 ts2 se2 we2 te2 hu2 wi2 →
  ∃ l1 out1 l2 out2,
    engineer_cell train test h = (<[l2:=out2]> (<[l1:=out1]> h), Ok (l1, l2))
    ∧ l1 ≠ l2 ∧ h !! l1 = None ∧ h !! l2 = None
    ∧ feature_engineering train h = (<[l1:=out1]> h, Ok l1)
    ∧ feature_engineering test h = (<[l1:=out2]> h, Ok l1).
Proof.
  intros H1 H2 V1 V2.
  destruct (valid_products V1) as (th1 & tw1 & A1 & B1 & _).
  destruct (valid_products V2) as (th2 & tw2 & A2 & B2 & _).
  pose proof (engineer_cell_run h train test _ _ _ _ _ _ _ th1 tw1
                _ _ _ _ _ _ _ th2 tw2 H1 H2 V1 V2 A1 B1 A2 B2) as Run.
  simpl in Run. eexists _, _, _, _. split; [exact Run|].
  set (l1 := fresh (dom h)).
  set (out1 := enriched d1 ts1 se1 we1 te1 hu1 wi1 th1 tw1).
  pose proof (fresh_loc_None (<[l1:=out1]> h)) as F.
  split; [|split; [apply fresh_loc_None|split]].
  - intros E. rewrite <- E, lookup_insert_eq in F. done.
  - destruct (decide (fresh (dom (<[l1:=out1]> h)) = l1)) as [E|N].
    + rewrite E, lookup_insert_eq in F. done.
    + by rewrite lookup_insert_ne in F.
  - split; by apply feature_engineering_run.
Qed.

(** X10. The exploration cells do not change what the engineering cell
    returns: run after them, it returns the same two frames, column for
    column, as run before them. *)
Theorem exploration_then_engineering (h : heap) (train test : loc)
    d1 ts1 se1 we1 te1 hu1 wi1 d2 ts2 se2 we2 te2 hu2 wi2 :
  train ≠ test → h !! train = Some d1 → h !! test = Some d2 →
  valid d1 ts1 se1 we1 te1 hu1 wi1 → valid d2 ts2 se2 we2 te2 hu2 wi2 →
  ∃ h1 h2 l1 l2 out1 out2 l1' l2',
    hour_cell train test h = (h1, Ok ())
    ∧ dayofweek_cell train test h1 = (h2, Ok ())
    ∧ engineer_cell train test h = (<[l2:=out2]> (<[l1:=out1]> h), Ok (l1, l2))
    ∧ engineer_cell train test h2 = (<[l2':=out2]> (<[l1':=out1]> h2), Ok (l1', l2')).
Proof.
  intros N H1 H2 V1 V2.
  destruct (valid_products V1) as (th1 & tw1 & A1 & B1 & _).
  destruct (valid_products V2) as (th2 & tw2 & A2 & B2 & _).
  pose proof (valid_length_ts V1) as L1. pose proof (valid_length_ts V2) as L2.
  pose proof (valid_explored _ _ _ _ _ _ _ V1) as V1'.
  pose proof (valid_explored _ _ _ _ _ _ _ V2) as V2'.
  destruct (valid_datetime _ _ _ _ _ _ _ V1) as (s1 & E1 & D1).
  destruct (valid_datetime _ _ _ _ _ _ _ V2) as (s2 & E2 & D2).
  eexists _, _, _, _, _, _, _, _.
  split; [apply (hour_cell_run h train test d1 d2 s1 s2 ts1 ts2); try done; apply V1 || apply V2|].
  split.
  { apply (dayofweek_cell_run _ train test
             (set_col "hour" (IntS (hour_of <$> ts1))
                (set_col "datetime" (DatetimeS ts1) d1))
             (set_col "hour" (IntS (hour_of <$> ts2))
                (set_col "datetime" (DatetimeS ts2) d2)) ts1 ts2); try done.
    - by rewrite lookup_insert_ne, lookup_insert_eq.
    - apply lookup_insert_eq.
    - lookup_col.
    - lookup_col. }
  split.
  { apply (engineer_cell_run h train test _ _ _ _ _ _ _ th1 tw1
             _ _ _ _ _ _ _ th2 tw2 H1 H2 V1 V2 A1 B1 A2 B2). }
  fold (explored d1 ts1). fold (explored d2 ts2).
  rewrite <- (enriched_explored d1), <- (enriched_explored d2).
  apply (engineer_cell_run _ train test (explored d1 ts1) _ _ _ _ _ _ th1 tw1
           (explored d2 ts2) _ _ _ _ _ _ th2 tw2); try done.
  - by rewrite lookup_insert_ne, lookup_insert_eq.
  - apply lookup_insert_eq.
Qed.

(** ** Dropping [datetime] *)

Lemma drop_run (h : heap) (l : loc) d c s :
  h !! l = Some d → cols d !! c = Some s →
  drop l c h
  = (<[fresh (dom h):={| nrows := nrows d; cols := delete c (cols d) |}]> h,
     Ok (fresh (dom h))).
Proof. intros Hl E. unfold drop. by rewrite Hl, E. Qed.

Lemma drop_raises (h : heap) (l : loc) d c :
  h !! l = Some d → cols d !! c = None → drop l c h = (h, Raise (KeyError c)).
Proof. intros Hl E. unfold drop. by rewrite Hl, E. Qed.

Lemma enriched_record_drop_datetime d i :
  enriched_record {| nrows := nrows d; cols := delete "datetime" (cols d) |} i
  = enriched_record d i.
Proof.
  unfold enriched_record, cell. simpl. by rewrite !lookup_delete_ne.
Qed.

(** X11. The statements that drop [datetime] return two new frames which
    lack [datetime] and keep every other column, so every row keeps its
    derived fields; the frames they are given are unchanged.  Run again on
    the frames they returned, as happens when the cell is executed a second
    time, they raise [KeyError] and change nothing. *)
Theorem drop_datetime_cell_once (h : heap) (a b : loc) da db sa sb :
  h !! a = Some da → h !! b = Some db →
  cols da !! "datetime" = Some sa → cols db !! "datetime" = Some sb →
  ∃ h' a' b' da' db',
    drop_datetime_cell a b h = (h', Ok (a', b'))
    ∧ h !! a' = None ∧ h !! b' = None ∧ a' ≠ b'
    ∧ h' !! a = Some da ∧ h' !! b = Some db
    ∧ h' !! a' = Some da' ∧ h' !! b' = Some db'
    ∧ nrows da' = nrows da ∧ nrows db' = nrows db
    ∧ cols da' !! "datetime" = None ∧ cols db' !! "datetime" = None
    ∧ (∀ c, c ≠ "datetime" →
         cols da' !! c = cols da !! c ∧ cols db' !! c = cols db !! c)
    ∧ (∀ i, enriched_record da' i = enriched_record da i
            ∧ enriched_record db' i = enriched_record db i)
    ∧ drop_datetime_cell a' b' h' = (h', Raise (KeyError "datetime")).
Proof.
  intros Ha Hb Ea Eb.
  set (a' := fresh (dom h)).
  set (da' := {| nrows := nrows da; cols := delete "datetime" (cols da) |}).
  set (h1 := <[a':=da']> h).
  set (b' := fresh (dom h1)).
  set (db' := {| nrows := nrows db; cols := delete "datetime" (cols db) |}).
  assert (h !! a' = None) as Fa by apply fresh_loc_None.
  assert (h1 !! b' = None) as Fb by apply fresh_loc_None.
  assert (a' ≠ b') as Nab.
  { intros E. rewrite <- E in Fb. subst h1. by rewrite lookup_insert_eq in Fb. }
  assert (h !! b' = None) as Fb'.
  { subst h1. by rewrite lookup_insert_ne in Fb. }
  assert (a ≠ a' ∧ b ≠ a' ∧ a ≠ b' ∧ b ≠ b') as (N1 & N2 & N3 & N4).
  { repeat split; intros E; congruence. }
  exists (<[b':=db']> h1), a', b', da', db'. split.
  { unfold drop_datetime_cell.
    rewrite (run_bind _ _ _ _ _ (drop_run h a da _ sa Ha Ea)). fold a' da' h1.
    erewrite run_bind; [done|].
    apply (drop_run h1 b db _ sb); [|done]. subst h1. by rewrite lookup_insert_ne. }
  subst h1. repeat (split; [done|]).
  split; [by rewrite !lookup_insert_ne|]. split; [by rewrite !lookup_insert_ne|].
  split; [by rewrite lookup_insert_ne, lookup_insert_eq|].
  split; [apply lookup_insert_eq|].
  split; [done|]. split; [done|].
  split; [apply lookup_delete_eq|]. split; [apply lookup_delete_eq|].
  split; [intros c N; simpl; by rewrite !lookup_delete_ne|].
  split; [intros i; split; apply enriched_record_drop_datetime|].
  unfold drop_datetime_cell. erewrite run_bind_raise; [done|].
  apply drop_raises with da'.
  - by rewrite lookup_insert_ne, lookup_insert_eq.
  - apply lookup_delete_eq.
Qed.

(** ** More on the submission cells *)

Lemma clip_lower_cases (p : float) :
  (clip_lower 0 p = None ↔ p = None)
  ∧ (∀ q, clip_lower 0 p = Some q → (0 <= q)%Q)
  ∧ (∀ q, p = Some q → (0 <= q)%Q → clip_lower 0 p = Some q).
Proof.
  destruct p as [p|]; simpl; [|done].
  destruct (Qle_bool 0 p) eqn:E.
  - apply Qle_bool_iff in E. repeat split; try done. by intros q [= <-].
  - repeat split; try done.
    + intros q [= <-]. apply Qle_refl.
    + intros q [= <-] H. apply Qle_bool_iff in H. congruence.
Qed.

(** X12. For any float predictions, missing ones included, of the length
    of the timestamps, the counts of a submission are never negative: a
    missing ([NaN]) prediction stays missing, a prediction at or above 0 is
    kept as it is, and every other count is 0. *)
Theorem submission_never_negative (h : heap) (test : loc) d
    (ts : list Timestamp) (ps : list float) :
  h !! test = Some d → cols d !! "datetime" = Some (DatetimeS ts) →
  length ts = length ps →
  ∃ sub out cs,
    advanced_submission test (FloatS ps) h = (<[sub:=out]> h, Ok sub)
    ∧ cols out !! "count" = Some (FloatS cs)
    ∧ length cs = length ps
    ∧ ∀ i p, ps !! i = Some p →
        ∃ c, cs !! i = Some c
             ∧ (c = None ↔ p = None)
             ∧ (∀ q, c = Some q → (0 <= q)%Q)
             ∧ (∀ q, p = Some q → (0 <= q)%Q → c = Some q)
             ∧ (∀ q, p = Some q → (q < 0)%Q → c = Some 0%Q).
Proof.
  intros Hl Hd L.
  exists (fresh (dom h)), (submission_frame ts ps), (clip_lower 0 <$> ps).
  split; [by apply (submission_cell_run h test d)|].
  unfold submission_frame. rewrite L, Nat.max_id, Nat.sub_diag. simpl.
  rewrite !app_nil_r. split; [by rewrite lookup_insert_eq|].
  split; [by rewrite length_fmap|].
  intros i p Hp. exists (clip_lower 0 p). rewrite list_lookup_fmap.
  split; [apply fmap_Some; by exists p|]. destruct (clip_lower_cases p) as (A & B & C).
  repeat split; try done; try apply A.
  intros q -> Hq. simpl. destruct (Qle_bool 0 q) eqn:E; [|done].
  apply Qle_bool_iff in E. exfalso. by apply (Qlt_not_le _ _ Hq).
Qed.

Lemma bind_assoc_M {A B C} (m : M A) (f : A → M B) (g : B → M C) (h : heap) :
  (m ≫= λ a, f a ≫= g) h = ((m ≫= f) ≫= g) h.
Proof. unfold mbind, M_bind. by destruct (m h) as [h' [a|e]]. Qed.

Lemma submission_prefix (h : heap) (test : loc) (preds : Series) :
  let r := (dt ← lift1 astype_str (getitem test "datetime");
            DataFrame_of_dict "datetime" dt "count" preds) h in
  (∃ e, r = (h, Raise e))
  ∨ (∃ frame, r = (<[fresh (dom h):=frame]> h, Ok (fresh (dom h)))).
Proof.
  unfold lift1, getitem, lift, DataFrame_of_dict, mbind, M_bind. simpl.
  destruct (h !! test) as [d|]; [|eauto].
  destruct (cols d !! "datetime") as [s|]; [|eauto].
  destruct (astype_str s) as [dt|]; [|eauto].
  destruct (reindex _ dt); [|eauto]. destruct (reindex _ preds); eauto.
Qed.

(** X13. A submission cell changes no frame that exists when it starts,
    the test frame among them, whatever it is given and whether it returns
    or raises; when the test frame has no [datetime] column it raises
    [KeyError] and creates no frame. *)
Theorem submission_cell_no_side_effect (h : heap) (test : loc) (preds : Series) :
  (∀ l0 d0, h !! l0 = Some d0 →
     (advanced_submission test preds h).1 !! l0 = Some d0)
  ∧ (∀ d, h !! test = Some d → cols d !! "datetime" = None →
       advanced_submission test preds h = (h, Raise (KeyError "datetime"))).
Proof.
  split.
  - intros l0 d0 H0. unfold advanced_submission, submission_cell.
    rewrite bind_assoc_M.
    destruct (submission_prefix h test preds) as [[e E]|[frame E]]; simpl in E.
    + by rewrite (run_bind_raise _ _ _ _ _ E).
    + rewrite (run_bind _ _ _ _ _ E).
      set (l' := fresh (dom h)).
      assert (l0 ≠ l') as N.
      { intros K. rewrite K in H0. unfold l' in H0. by rewrite fresh_loc_None in H0. }
      match goal with |- (?k _).1 !! _ = _ =>
        assert (writes_only l' k) as Hw end.
      { apply writes_only_bind; [auto 6 with writes|]. intros _. apply writes_only_ret. }
      rewrite (Hw _ l0 N). by rewrite lookup_insert_ne.
  - intros d Hl E. unfold advanced_submission, submission_cell.
    erewrite run_bind_raise; [done|].
    apply raises_lift1. by apply raises_getitem with d.
Qed.

(** ** The weekend flag and the products *)

Lemma dayofweek_of_range t : 0 ≤ dayofweek_of t ≤ 6.
Proof. unfold dayofweek_of. pose proof (Z.mod_pos_bound (days_of t + 3) 7). lia. Qed.

(** X14. In every row of the result [is_weekend] is 0 or 1; it is 1 on the
    days 5 and 6 of the week (Saturday, Sunday) and 0 on the days 0 to
    4. *)
Theorem is_weekend_days (h : heap) (l : loc) d ts se we te hu wi i :
  h !! l = Some d → valid d ts se we te hu wi → (i < nrows d)%nat →
  ∃ l' out e,
    feature_engineering l h = (<[l':=out]> h, Ok l')
    ∧ enriched_record out i = Some e
    ∧ 0 ≤ e_dayofweek e ≤ 6
    ∧ (e_is_weekend e = 1 ↔ e_dayofweek e = 5 ∨ e_dayofweek e = 6)
    ∧ (e_is_weekend e = 0 ↔ 0 ≤ e_dayofweek e ≤ 4).
Proof.
  intros Hl V Hi.
  destruct (feature_engineering_row h l _ _ _ _ _ _ _ i Hl V Hi)
    as (l' & out & r & Run & _ & He).
  exists l', out, (enrich_record r). split; [done|]. split; [done|]. simpl.
  pose proof (dayofweek_of_range (r_timestamp r)) as R.
  unfold weekend_flag. case_tests; lia.
Qed.

(** X15. The products propagate missing values and make none: in a row
    where a factor is missing ([NaN]) the product is missing, and in a row
    where both factors are finite numbers the product is not missing. *)
Theorem product_missing_propagates (h : heap) (l : loc) d ts se we te hu wi i :
  h !! l = Some d → valid d ts se we te hu wi → (i < nrows d)%nat →
  ∃ l' out r e,
    feature_engineering l h = (<[l':=out]> h, Ok l')
    ∧ raw_record d i = Some r
    ∧ enriched_record out i = Some e
    ∧ (float_of_num (r_temp r) = None ∨ float_of_num (r_humidity r) = None →
         float_of_num (e_temp_humidity e) = None)
    ∧ (float_of_num (r_temp r) = None ∨ float_of_num (r_windspeed r) = None →
         float_of_num (e_temp_windspeed e) = None)
    ∧ (∀ a b : Q, float_of_num (r_temp r) = Some a →
         float_of_num (r_humidity r) = Some b →
         float_of_num (e_temp_humidity e) ≠ None)
    ∧ (∀ a b : Q, float_of_num (r_temp r) = Some a →
         float_of_num (r_windspeed r) = Some b →
         float_of_num (e_temp_windspeed e) ≠ None).
Proof.
  intros Hl V Hi.
  destruct (feature_engineering_row h l _ _ _ _ _ _ _ i Hl V Hi)
    as (l' & out & r & Run & Hr & He).
  exists l', out, r, (enrich_record r). repeat (split; [done|]). simpl.
  repeat split.
  - destruct (r_temp r) as [?|[?|]], (r_humidity r) as [?|[?|]]; simpl;
      intros [K|K]; done.
  - destruct (r_temp r) as [?|[?|]], (r_windspeed r) as [?|[?|]]; simpl;
      intros [K|K]; done.
  - destruct (r_temp r) as [?|[?|]], (r_humidity r) as [?|[?|]]; simpl;
      intros a b Ha Hb; done.
  - destruct (r_temp r) as [?|[?|]], (r_windspeed r) as [?|[?|]]; simpl;
      intros a b Ha Hb; done.
Qed.
End Notebook.

(** * The properties on the example frames *)

Ltac prove_valid s :=
  split;
  [ apply (bool_decide_unpack _); by vm_compute
  | exists s; split; by vm_compute
  | by vm_compute
  | by vm_compute
  | split; by vm_compute .. ].

(** The end-to-end scenario of the spec: the first row of the training set
    is a Saturday at midnight. *)
Example scenario_enriched :
  ∃ out e,
    feature_engineering iso_parse iso_format Qmult 1%positive (heap_of scenario_frame)
    = (<[2%positive:=out]> (heap_of scenario_frame), Ok 2%positive)
    ∧ enriched_record out 0 = Some e
    ∧ e_hour e = 0 ∧ e_dayofweek e = 5 ∧ e_is_weekend e = 1 ∧ e_is_rush_hour e = 0
    ∧ e_weather_season e = Some "1_1" ∧ e_temp_bin e = Some "cold"
    ∧ e_windspeed_bin e = None.
Proof.
  eexists _, _. split; [by vm_compute|]. split; [by vm_compute|]. by vm_compute.
Qed.

(** Friday 07:00 is a rush hour, Saturday 07:00 is not. *)
Example commute_enriched :
  ∃ out fri sat,
    feature_engineering iso_parse iso_format Qmult 1%positive (heap_of commute_frame)
    = (<[2%positive:=out]> (heap_of commute_frame), Ok 2%positive)
    ∧ enriched_record out 0 = Some fri ∧ enriched_record out 1 = Some sat
    ∧ e_hour fri = 7 ∧ e_dayofweek fri = 4 ∧ e_is_rush_hour fri = 1
    ∧ e_is_weekend fri = 0
    ∧ e_hour sat = 7 ∧ e_dayofweek sat = 5 ∧ e_is_rush_hour sat = 0
    ∧ e_is_weekend sat = 1
    ∧ e_temp_bin fri = Some "cold" ∧ e_temp_bin sat = Some "hot"
    ∧ e_humidity_bin sat = None.
Proof.
  eexists _, _, _. split; [by vm_compute|].
  split; [by vm_compute|]. split; [by vm_compute|]. by vm_compute.
Qed.

Lemma feature_engineering_rows_witness :
  heap_of commute_frame !! 1%positive = Some commute_frame
  ∧ valid iso_parse commute_frame [1294383600000000000; 1294470000000000000]
      [1; 1] [2; 1] (FloatS [Some (10 # 1)%Q; Some (50 # 1)%Q])
      (FloatS [Some (55 # 1)%Q; Some 0%Q])
      (FloatS [Some (7 # 1)%Q; Some (30 # 1)%Q])
  ∧ nrows commute_frame = 2%nat
  ∧ ∃ l' out,
      feature_engineering iso_parse iso_format Qmult 1%positive (heap_of commute_frame)
      = (<[l':=out]> (heap_of commute_frame), Ok l')
      ∧ nrows out = nrows commute_frame
      ∧ wf out
      ∧ (∀ c, c ∉ written_columns → cols out !! c = cols commute_frame !! c)
      ∧ (∀ i, (i < nrows commute_frame)%nat →
           ∃ r, raw_record iso_parse commute_frame i = Some r
                ∧ raw_record iso_parse out i = Some r
                ∧ enriched_record out i = Some (enrich_record Qmult r))
      ∧ (∀ i, (nrows commute_frame ≤ i)%nat →
           raw_record iso_parse out i = None ∧ enriched_record out i = None).
Proof.
  split; [reflexivity|].
  split; [prove_valid (ObjectS [Some "2011-01-07 07:00:00"; Some "2011-01-08 07:00:00"])|].
  split; [reflexivity|].
  apply (feature_engineering_rows iso_parse iso_format Qmult (heap_of commute_frame)
           1%positive commute_frame [1294383600000000000; 1294470000000000000]
           [1; 1] [2; 1] (FloatS [Some (10 # 1)%Q; Some (50 # 1)%Q])
           (FloatS [Some (55 # 1)%Q; Some 0%Q])
           (FloatS [Some (7 # 1)%Q; Some (30 # 1)%Q]));
    [reflexivity|prove_valid (ObjectS [Some "2011-01-07 07:00:00"; Some "2011-01-08 07:00:00"])].
Defined.

Lemma is_rush_hour_iff_witness :
  heap_of commute_frame !! 1%positive = Some commute_frame
  ∧ (0 < nrows commute_frame)%nat
  ∧ ∃ l' out e,
      feature_engineering iso_parse iso_format Qmult 1%positive (heap_of commute_frame)
      = (<[l':=out]> (heap_of commute_frame), Ok l')
      ∧ enriched_record out 0 = Some e
      ∧ (e_is_rush_hour e = 1 ∨ e_is_rush_hour e = 0)
      ∧ (e_is_rush_hour e = 1
         ↔ e_dayofweek e < 5 ∧ (7 ≤ e_hour e ≤ 9 ∨ 16 ≤ e_hour e ≤ 19))
      ∧ (e_hour e = 7 → e_dayofweek e = 4 → e_is_rush_hour e = 1)
      ∧ (e_hour e = 7 → e_dayofweek e = 5 → e_is_rush_hour e = 0).
Proof.
  split; [reflexivity|]. split; [simpl; lia|].
  apply (is_rush_hour_iff iso_parse iso_format Qmult (heap_of commute_frame)
           1%positive commute_frame [1294383600000000000; 1294470000000000000]
           [1; 1] [2; 1] (FloatS [Some (10 # 1)%Q; Some (50 # 1)%Q])
           (FloatS [Some (55 # 1)%Q; Some 0%Q])
           (FloatS [Some (7 # 1)%Q; Some (30 # 1)%Q]) 0%nat);
    [reflexivity
    |prove_valid (ObjectS [Some "2011-01-07 07:00:00"; Some "2011-01-08 07:00:00"])
    |simpl; lia].
Defined.

Lemma rush_hour_weekend_exclusive_witness :
  heap_of commute_frame !! 1%positive = Some commute_frame
  ∧ (1 < nrows commute_frame)%nat
  ∧ ∃ l' out e,
      feature_engineering iso_parse iso_format Qmult 1%positive (heap_of commute_frame)
      = (<[l':=out]> (heap_of commute_frame), Ok l')
      ∧ enriched_record out 1 = Some e
      ∧ (e_is_weekend e = 1 ↔ 5 ≤ e_dayofweek e)
      ∧ (e_is_rush_hour e = 1 → e_dayofweek e < 5)
      ∧ ¬ (e_is_rush_hour e = 1 ∧ e_is_weekend e = 1).
Proof.
  split; [reflexivity|]. split; [simpl; lia|].
  apply (rush_hour_weekend_exclusive iso_parse iso_format Qmult (heap_of commute_frame)
           1%positive commute_frame [1294383600000000000; 1294470000000000000]
           [1; 1] [2; 1] (FloatS [Some (10 # 1)%Q; Some (50 # 1)%Q])
           (FloatS [Some (55 # 1)%Q; Some 0%Q])
           (FloatS [Some (7 # 1)%Q; Some (30 # 1)%Q]) 1%nat);
    [reflexivity
    |prove_valid (ObjectS [Some "2011-01-07 07:00:00"; Some "2011-01-08 07:00:00"])
    |simpl; lia].
Defined.

Lemma zero_humidity_windspeed_unbinned_witness :
  heap_of commute_frame !! 1%positive = Some commute_frame
  ∧ (1 < nrows commute_frame)%nat
  ∧ ∃ l' out r e,
      feature_engineering iso_parse iso_format Qmult 1%positive (heap_of commute_frame)
      = (<[l':=out]> (heap_of commute_frame), Ok l')
      ∧ raw_record iso_parse commute_frame 1 = Some r
      ∧ enriched_record out 1 = Some e
      ∧ (∀ q, float_of_num (r_humidity r) = Some q → q == 0 →
           e_humidity_bin e = None ∧ e_humidity_bin e ≠ Some "low")
      ∧ (∀ q, float_of_num (r_windspeed r) = Some q → q == 0 →
           e_windspeed_bin e = None ∧ e_windspeed_bin e ≠ Some "low").
Proof.
  split; [reflexivity|]. split; [simpl; lia|].
  apply (zero_humidity_windspeed_unbinned iso_parse iso_format Qmult
           (heap_of commute_frame)
           1%positive commute_frame [1294383600000000000; 1294470000000000000]
           [1; 1] [2; 1] (FloatS [Some (10 # 1)%Q; Some (50 # 1)%Q])
           (FloatS [Some (55 # 1)%Q; Some 0%Q])
           (FloatS [Some (7 # 1)%Q; Some (30 # 1)%Q]) 1%nat);
    [reflexivity
    |prove_valid (ObjectS [Some "2011-01-07 07:00:00"; Some "2011-01-08 07:00:00"])
    |simpl; lia].
Defined.

Lemma feature_engineering_no_range_check_witness :
  heap_of out_of_range_frame !! 1%positive = Some out_of_range_frame
  ∧ ∃ l' out,
      feature_engineering iso_parse iso_format Qmult 1%positive (heap_of out_of_range_frame)
      = (<[l':=out]> (heap_of out_of_range_frame), Ok l')
      ∧ ∀ i, (i < nrows out_of_range_frame)%nat →
          ∃ r e, raw_record iso_parse out_of_range_frame i = Some r
                 ∧ enriched_record out i = Some e
                 ∧ e_weather_season e
                   = Some ((pretty (r_weather r) +:+ "_") +:+ pretty (r_season r)).
Proof.
  split; [reflexivity|].
  apply (feature_engineering_no_range_check iso_parse iso_format Qmult
           (heap_of out_of_range_frame) 1%positive out_of_range_frame
           [1293840000000000000] [7] [0]
           (FloatS [Some (984 # 100)%Q]) (IntS [81]) (FloatS [Some (6 # 1)%Q]));
    [reflexivity|prove_valid (ObjectS [Some "2011-01-01 00:00:00"])].
Defined.

(** C5 fails on the code: a row with [season = 7] and [weather = 0] is not
    rejected; the call returns and the row gets [weather_season = "0_7"]. *)
Lemma out_of_range_not_rejected :
  ∃ r out,
    raw_record iso_parse out_of_range_frame 0 = Some r
    ∧ r_season r = 7 ∧ r_weather r = 0
    ∧ feature_engineering iso_parse iso_format Qmult 1%positive
        (heap_of out_of_range_frame)
      = (<[2%positive:=out]> (heap_of out_of_range_frame), Ok 2%positive)
    ∧ cell out "weather_season" 0 = Some (VStr (Some "0_7"))
    ∧ ¬ ∃ e, (feature_engineering iso_parse iso_format Qmult 1%positive
                (heap_of out_of_range_frame)).2 = Raise e.
Proof.
  eexists _, _. split; [by vm_compute|]. split; [by vm_compute|].
  split; [by vm_compute|]. split; [by vm_compute|]. split; [by vm_compute|].
  intros [e E]. vm_compute in E. discriminate E.
Qed.

Lemma feature_engineering_idempotent_witness :
  heap_of scenario_frame !! 1%positive = Some scenario_frame
  ∧ ∃ l1 out l2,
      feature_engineering iso_parse iso_format Qmult 1%positive (heap_of scenario_frame)
      = (<[l1:=out]> (heap_of scenario_frame), Ok l1)
      ∧ feature_engineering iso_parse iso_format Qmult l1
          (<[l1:=out]> (heap_of scenario_frame))
        = (<[l2:=out]> (<[l1:=out]> (heap_of scenario_frame)), Ok l2)
      ∧ l2 ≠ l1.
Proof.
  split; [reflexivity|].
  apply (feature_engineering_idempotent iso_parse iso_format Qmult (heap_of scenario_frame)
           1%positive scenario_frame [1293840000000000000] [1] [1]
           (FloatS [Some (984 # 100)%Q]) (IntS [81]) (FloatS [Some 0%Q]));
    [reflexivity|prove_valid (ObjectS [Some "2011-01-01 00:00:00"])].
Defined.

Lemma feature_engineering_no_side_effect_witness :
  heap_of scenario_frame !! 1%positive = Some scenario_frame
  ∧ (feature_engineering iso_parse iso_format Qmult 1%positive
       (heap_of scenario_frame)).1 !! 1%positive = Some scenario_frame
  ∧ ∀ l', (feature_engineering iso_parse iso_format Qmult 1%positive
             (heap_of scenario_frame)).2 = Ok l' →
          heap_of scenario_frame !! l' = None.
Proof.
  split; [reflexivity|].
  apply (feature_engineering_no_side_effect iso_parse iso_format Qmult
           (heap_of scenario_frame) 1%positive 1%positive scenario_frame).
  reflexivity.
Defined.

(** The negative-prediction scenario of the spec. *)
Example submission_clipped :
  ∃ out,
    advanced_submission iso_format 1%positive
      (FloatS [Some (-52 # 10)%Q; Some 0%Q; Some (427 # 10)%Q]) (heap_of test_frame)
    = (<[2%positive:=out]> (heap_of test_frame), Ok 2%positive)
    ∧ cols out !! "datetime"
      = Some (ObjectS [Some "2011-01-20 00:00:00"; Some "2011-01-20 01:00:00";
                       Some "2011-01-20 02:00:00"])
    ∧ cols out !! "count" = Some (FloatS [Some 0%Q; Some 0%Q; Some (427 # 10)%Q]).
Proof. eexists. split; [by vm_compute|]. split; by vm_compute. Qed.

Lemma submission_counts_witness :
  heap_of test_frame !! 1%positive = Some test_frame
  ∧ cols test_frame !! "datetime" = Some (DatetimeS test_timestamps)
  ∧ length test_timestamps = length [-52 # 10; 0; 427 # 10]%Q
  ∧ ∃ sub out cs,
      advanced_submission iso_format 1%positive
        (FloatS (Some <$> [-52 # 10; 0; 427 # 10]%Q)) (heap_of test_frame)
      = (<[sub:=out]> (heap_of test_frame), Ok sub)
      ∧ initial_submission iso_format 1%positive
          (FloatS (Some <$> [-52 # 10; 0; 427 # 10]%Q)) (heap_of test_frame)
        = (<[sub:=out]> (heap_of test_frame), Ok sub)
      ∧ heap_of test_frame !! sub = None
      ∧ nrows out = length [-52 # 10; 0; 427 # 10]%Q
      ∧ cols out !! "datetime"
        = Some (ObjectS ((λ t, Some (iso_format t)) <$> test_timestamps))
      ∧ cols out !! "count" = Some (FloatS (Some <$> cs))
      ∧ Forall2 (λ c p, c == Qmax 0 p) cs [-52 # 10; 0; 427 # 10]%Q
      ∧ ([-52 # 10; 0; 427 # 10]%Q = [-52 # 10; 0; 427 # 10]%Q →
         cs = [0; 0; 427 # 10]%Q).
Proof.
  split; [reflexivity|]. split; [reflexivity|]. split; [reflexivity|].
  apply (submission_counts iso_format (heap_of test_frame) 1%positive test_frame
           test_timestamps [-52 # 10; 0; 427 # 10]%Q); reflexivity.
Defined.

Lemma submission_no_length_check_witness :
  heap_of test_frame !! 1%positive = Some test_frame
  ∧ cols test_frame !! "datetime" = Some (DatetimeS test_timestamps)
  ∧ ∃ sub out,
      advanced_submission iso_format 1%positive (FloatS [Some (-1 # 1)%Q])
        (heap_of test_frame)
      = (<[sub:=out]> (heap_of test_frame), Ok sub)
      ∧ nrows out = Nat.max (length test_timestamps) (length [Some (-1 # 1)%Q])
      ∧ cols out !! "datetime"
        = Some (ObjectS (((λ t, Some (iso_format t)) <$> test_timestamps)
                         ++ replicate (nrows out - length test_timestamps) None))
      ∧ cols out !! "count"
        = Some (FloatS ((clip_lower 0 <$> [Some (-1 # 1)%Q])
                        ++ replicate (nrows out - length [Some (-1 # 1)%Q]) None)).
Proof.
  split; [reflexivity|]. split; [reflexivity|].
  apply (submission_no_length_check iso_format (heap_of test_frame) 1%positive
           test_frame test_timestamps [Some (-1 # 1)%Q]); reflexivity.
Defined.

(** C6 fails on the code: three timestamps and one prediction are not
    rejected; the cell returns a frame of three rows, the last two without a
    count. *)
Lemma length_mismatch_not_rejected :
  length test_timestamps ≠ length [Some (-1 # 1)%Q]
  ∧ ∃ out,
      advanced_submission iso_format 1%positive (FloatS [Some (-1 # 1)%Q])
        (heap_of test_frame)
      = (<[2%positive:=out]> (heap_of test_frame), Ok 2%positive)
      ∧ nrows out = 3%nat
      ∧ cols out !! "count" = Some (FloatS [Some 0%Q; None; None])
      ∧ ¬ ∃ e, (advanced_submission iso_format 1%positive (FloatS [Some (-1 # 1)%Q])
                  (heap_of test_frame)).2 = Raise e.
Proof.
  split; [by vm_compute|]. eexists. split; [by vm_compute|].
  split; [by vm_compute|]. split; [by vm_compute|].
  intros [e E]. vm_compute in E. discriminate E.
Qed.

Lemma bins_left_open_right_closed_witness :
  (temp_bins, temp_labels)
  ∈ [(temp_bins, temp_labels); (humidity_bins, humidity_labels);
     (windspeed_bins, windspeed_labels)]
  ∧ (pd_cut temp_bins temp_labels (Some (10 # 1)%Q) = Some "cold"
     ↔ ∃ k lo hi, temp_labels !! k = Some "cold" ∧ temp_bins !! k = Some lo
                  ∧ temp_bins !! S k = Some hi ∧ (lo < 10 # 1)%Q ∧ (10 # 1 <= hi)%Q).
Proof.
  split; [apply list_elem_of_here|].
  apply (proj1 bins_left_open_right_closed). apply list_elem_of_here.
Defined.

(** C4 fails on the code where it says right-open: under the policy of the
    spec [temp = 0.0] is [cold], [temp = -20.0] is [very_cold] and
    [temp = 10.0] is [mild]; the code gives [very_cold], no bin and
    [cold]. *)
Lemma bins_not_right_open :
  cut_right_open temp_bins temp_labels (0 # 1)%Q = Some "cold"
  ∧ temp_bin (Some (0 # 1)%Q) = Some "very_cold"
  ∧ cut_right_open temp_bins temp_labels (-20 # 1)%Q = Some "very_cold"
  ∧ temp_bin (Some (-20 # 1)%Q) = None
  ∧ cut_right_open temp_bins temp_labels (10 # 1)%Q = Some "mild"
  ∧ temp_bin (Some (10 # 1)%Q) = Some "cold"
  ∧ cut_right_open temp_bins temp_labels (50 # 1)%Q = Some "hot"
  ∧ ¬ (∀ x, temp_bin (Some x) = cut_right_open temp_bins temp_labels x).
Proof.
  repeat (split; [by vm_compute|]).
  intros H. specialize (H (0 # 1)%Q). vm_compute in H. discriminate H.
Qed.

(** * The further properties on the example frames *)

Ltac prove_wf := apply (bool_decide_unpack _); by vm_compute.

Lemma feature_engineering_missing_column_witness :
  heap_of no_temp_frame !! 1%positive = Some no_temp_frame
  ∧ wf no_temp_frame
  ∧ cols no_temp_frame !! "temp" = None
  ∧ (feature_engineering iso_parse iso_format Qmult 1%positive
       (heap_of no_temp_frame)).2 = Raise (KeyError "temp").
Proof.
  split; [reflexivity|]. split; [prove_wf|]. split; [by vm_compute|].
  apply (feature_engineering_missing_column iso_parse iso_format Qmult
           (heap_of no_temp_frame) 1%positive no_temp_frame
           (take 3 (required_columns iso_parse)) "temp"
           (λ s, Is_true (is_numeric s)) (skipn 4 (required_columns iso_parse))).
  - reflexivity.
  - prove_wf.
  - reflexivity.
  - simpl. repeat constructor; simpl; eexists; (split; [by vm_compute|]);
      try (eexists; by vm_compute); done.
  - by vm_compute.
Defined.

Lemma feature_engineering_bad_timestamp_witness :
  heap_of bad_date_frame !! 1%positive = Some bad_date_frame
  ∧ iso_parse "2011-02-30 00:00:00" = None
  ∧ feature_engineering iso_parse iso_format Qmult 1%positive (heap_of bad_date_frame)
    = (<[fresh (dom (heap_of bad_date_frame)):=bad_date_frame]> (heap_of bad_date_frame),
       Raise ValueError).
Proof.
  split; [reflexivity|]. split; [by vm_compute|].
  apply (feature_engineering_bad_timestamp iso_parse iso_format Qmult
           (heap_of bad_date_frame) 1%positive bad_date_frame
           [Some "2011-01-01 00:00:00"; Some "2011-02-30 00:00:00"]
           ["2011-01-01 00:00:00"; "2011-02-30 00:00:00"]);
    [reflexivity|by vm_compute|by vm_compute|by vm_compute].
Defined.

Ltac commute_valid :=
  prove_valid (ObjectS [Some "2011-01-07 07:00:00"; Some "2011-01-08 07:00:00"]).

Lemma feature_engineering_schema_witness :
  (0 < nrows commute_frame)%nat
  ∧ ∃ l' out,
    feature_engineering iso_parse iso_format Qmult 1%positive (heap_of commute_frame)
    = (<[l':=out]> (heap_of commute_frame), Ok l')
    ∧ dom (cols out) = dom (cols commute_frame) ∪ list_to_set written_columns
    ∧ cols out !! "datetime"
      = Some (DatetimeS [1294383600000000000; 1294470000000000000])
    ∧ (∀ c, c ∈ ["hour"; "day"; "month"; "year"; "dayofweek";
                 "is_rush_hour"; "is_weekend"] →
         ∃ xs, cols out !! c = Some (IntS xs))
    ∧ (∃ xs, cols out !! "weather_season" = Some (ObjectS xs) ∧ Forall is_Some xs)
    ∧ ((0 < nrows commute_frame)%nat →
         ∃ xs, cols out !! "time_of_day" = Some (ObjectS xs) ∧ Forall is_Some xs)
    ∧ (nrows commute_frame = 0%nat → cols out !! "time_of_day" = Some (IntS []))
    ∧ (∀ c, c ∈ ["temp_bin"; "humidity_bin"; "windspeed_bin"] →
         ∃ xs, cols out !! c = Some (CategoryS xs))
    ∧ (∀ c, c ∈ ["temp_humidity"; "temp_windspeed"] →
         ∃ s, cols out !! c = Some s ∧ is_numeric s).
Proof.
  split; [simpl; lia|].
  apply (feature_engineering_schema iso_parse iso_format Qmult (heap_of commute_frame)
           1%positive commute_frame [1294383600000000000; 1294470000000000000]
           [1; 1] [2; 1] (FloatS [Some (10 # 1)%Q; Some (50 # 1)%Q])
           (FloatS [Some (55 # 1)%Q; Some 0%Q])
           (FloatS [Some (7 # 1)%Q; Some (30 # 1)%Q]));
    [reflexivity|commute_valid].
Defined.

(** On a frame without rows [time_of_day] keeps the integer dtype of
    [hour]; every other assigned column has the dtype it has on a frame with
    rows. *)
Example empty_frame_enriched :
  ∃ out,
    feature_engineering iso_parse iso_format Qmult 1%positive (heap_of empty_frame)
    = (<[2%positive:=out]> (heap_of empty_frame), Ok 2%positive)
    ∧ nrows out = 0%nat
    ∧ cols out !! "hour" = Some (IntS [])
    ∧ cols out !! "time_of_day" = Some (IntS [])
    ∧ cols out !! "weather_season" = Some (ObjectS [])
    ∧ cols out !! "temp_bin" = Some (CategoryS []).
Proof.
  eexists. split; [by vm_compute|]. by vm_compute.
Qed.

Lemma time_of_day_bands_witness :
  ∃ l' out e,
    feature_engineering iso_parse iso_format Qmult 1%positive (heap_of commute_frame)
    = (<[l':=out]> (heap_of commute_frame), Ok l')
    ∧ enriched_record out 0 = Some e
    ∧ 0 ≤ e_hour e ≤ 23
    ∧ e_time_of_day e
      ∈ [Some "morning"; Some "afternoon"; Some "evening"; Some "night"]
    ∧ (e_time_of_day e = Some "morning" ↔ 6 ≤ e_hour e ≤ 11)
    ∧ (e_time_of_day e = Some "afternoon" ↔ 12 ≤ e_hour e ≤ 17)
    ∧ (e_time_of_day e = Some "evening" ↔ 18 ≤ e_hour e ≤ 21)
    ∧ (e_time_of_day e = Some "night" ↔ e_hour e ≤ 5 ∨ 22 ≤ e_hour e).
Proof.
  apply (time_of_day_bands iso_parse iso_format Qmult (heap_of commute_frame)
           1%positive commute_frame [1294383600000000000; 1294470000000000000]
           [1; 1] [2; 1] (FloatS [Some (10 # 1)%Q; Some (50 # 1)%Q])
           (FloatS [Some (55 # 1)%Q; Some 0%Q])
           (FloatS [Some (7 # 1)%Q; Some (30 # 1)%Q]) 0%nat);
    [reflexivity|commute_valid|simpl; lia].
Defined.

Lemma rush_hour_time_of_day_witness :
  ∃ l' out e,
    feature_engineering iso_parse iso_format Qmult 1%positive (heap_of commute_frame)
    = (<[l':=out]> (heap_of commute_frame), Ok l')
    ∧ enriched_record out 0 = Some e
    ∧ (e_is_rush_hour e = 1 →
         (7 ≤ e_hour e ≤ 9 ∧ e_time_of_day e = Some "morning")
         ∨ (16 ≤ e_hour e ≤ 17 ∧ e_time_of_day e = Some "afternoon")
         ∨ (18 ≤ e_hour e ≤ 19 ∧ e_time_of_day e = Some "evening"))
    ∧ (e_time_of_day e = Some "night" → e_is_rush_hour e = 0).
Proof.
  apply (rush_hour_time_of_day iso_parse iso_format Qmult (heap_of commute_frame)
           1%positive commute_frame [1294383600000000000; 1294470000000000000]
           [1; 1] [2; 1] (FloatS [Some (10 # 1)%Q; Some (50 # 1)%Q])
           (FloatS [Some (55 # 1)%Q; Some 0%Q])
           (FloatS [Some (7 # 1)%Q; Some (30 # 1)%Q]) 0%nat);
    [reflexivity|commute_valid|simpl; lia].
Defined.

Lemma bins_missing_iff_witness :
  ∃ l' out r e,
    feature_engineering iso_parse iso_format Qmult 1%positive (heap_of commute_frame)
    = (<[l':=out]> (heap_of commute_frame), Ok l')
    ∧ raw_record iso_parse commute_frame 1 = Some r
    ∧ enriched_record out 1 = Some e
    ∧ (e_temp_bin e = None
       ↔ float_of_num (r_temp r) = None
         ∨ ∃ q, float_of_num (r_temp r) = Some q ∧ (q <= -20 # 1 ∨ 50 # 1 < q)%Q)
    ∧ (e_humidity_bin e = None
       ↔ float_of_num (r_humidity r) = None
         ∨ ∃ q, float_of_num (r_humidity r) = Some q ∧ (q <= 0 ∨ 100 # 1 < q)%Q)
    ∧ (e_windspeed_bin e = None
       ↔ float_of_num (r_windspeed r) = None
         ∨ ∃ q, float_of_num (r_windspeed r) = Some q ∧ (q <= 0 ∨ 100 # 1 < q)%Q)
    ∧ (∀ lab, e_temp_bin e = Some lab → lab ∈ temp_labels)
    ∧ (∀ lab, e_humidity_bin e = Some lab → lab ∈ humidity_labels)
    ∧ (∀ lab, e_windspeed_bin e = Some lab → lab ∈ windspeed_labels).
Proof.
  apply (bins_missing_iff iso_parse iso_format Qmult (heap_of commute_frame)
           1%positive commute_frame [1294383600000000000; 1294470000000000000]
           [1; 1] [2; 1] (FloatS [Some (10 # 1)%Q; Some (50 # 1)%Q])
           (FloatS [Some (55 # 1)%Q; Some 0%Q])
           (FloatS [Some (7 # 1)%Q; Some (30 # 1)%Q]) 1%nat);
    [reflexivity|commute_valid|simpl; lia].
Defined.

Lemma weather_season_joint_witness :
  ∃ l' out ri rj ei ej,
    feature_engineering iso_parse iso_format Qmult 1%positive (heap_of commute_frame)
    = (<[l':=out]> (heap_of commute_frame), Ok l')
    ∧ raw_record iso_parse commute_frame 0 = Some ri
    ∧ raw_record iso_parse commute_frame 1 = Some rj
    ∧ enriched_record out 0 = Some ei ∧ enriched_record out 1 = Some ej
    ∧ (e_weather_season ei = e_weather_season ej
       ↔ r_weather ri = r_weather rj ∧ r_season ri = r_season rj).
Proof.
  apply (weather_season_joint iso_parse iso_format Qmult (heap_of commute_frame)
           1%positive commute_frame [1294383600000000000; 1294470000000000000]
           [1; 1] [2; 1] (FloatS [Some (10 # 1)%Q; Some (50 # 1)%Q])
           (FloatS [Some (55 # 1)%Q; Some 0%Q])
           (FloatS [Some (7 # 1)%Q; Some (30 # 1)%Q]) 0%nat 1%nat);
    [reflexivity|commute_valid|simpl; lia|simpl; lia].
Defined.

Lemma is_weekend_days_witness :
  ∃ l' out e,
    feature_engineering iso_parse iso_format Qmult 1%positive (heap_of commute_frame)
    = (<[l':=out]> (heap_of commute_frame), Ok l')
    ∧ enriched_record out 1 = Some e
    ∧ 0 ≤ e_dayofweek e ≤ 6
    ∧ (e_is_weekend e = 1 ↔ e_dayofweek e = 5 ∨ e_dayofweek e = 6)
    ∧ (e_is_weekend e = 0 ↔ 0 ≤ e_dayofweek e ≤ 4).
Proof.
  apply (is_weekend_days iso_parse iso_format Qmult (heap_of commute_frame)
           1%positive commute_frame [1294383600000000000; 1294470000000000000]
           [1; 1] [2; 1] (FloatS [Some (10 # 1)%Q; Some (50 # 1)%Q])
           (FloatS [Some (55 # 1)%Q; Some 0%Q])
           (FloatS [Some (7 # 1)%Q; Some (30 # 1)%Q]) 1%nat);
    [reflexivity|commute_valid|simpl; lia].
Defined.

Lemma product_missing_propagates_witness :
  ∃ l' out r e,
    feature_engineering iso_parse iso_format Qmult 1%positive (heap_of commute_frame)
    = (<[l':=out]> (heap_of commute_frame), Ok l')
    ∧ raw_record iso_parse commute_frame 0 = Some r
    ∧ enriched_record out 0 = Some e
    ∧ (float_of_num (r_temp r) = None ∨ float_of_num (r_humidity r) = None →
         float_of_num (e_temp_humidity e) = None)
    ∧ (float_of_num (r_temp r) = None ∨ float_of_num (r_windspeed r) = None →
         float_of_num (e_temp_windspeed e) = None)
    ∧ (∀ a b : Q, float_of_num (r_temp r) = Some a →
         float_of_num (r_humidity r) = Some b →
         float_of_num (e_temp_humidity e) ≠ None)
    ∧ (∀ a b : Q, float_of_num (r_temp r) = Some a →
         float_of_num (r_windspeed r) = Some b →
         float_of_num (e_temp_windspeed e) ≠ None).
Proof.
  apply (product_missing_propagates iso_parse iso_format Qmult (heap_of commute_frame)
           1%positive commute_frame [1294383600000000000; 1294470000000000000]
           [1; 1] [2; 1] (FloatS [Some (10 # 1)%Q; Some (50 # 1)%Q])
           (FloatS [Some (55 # 1)%Q; Some 0%Q])
           (FloatS [Some (7 # 1)%Q; Some (30 # 1)%Q]) 0%nat);
    [reflexivity|commute_valid|simpl; lia].
Defined.

Ltac scenario_valid :=
  prove_valid (ObjectS [Some "2011-01-01 00:00:00"]).

Ltac test_valid := prove_valid (DatetimeS test_timestamps).

Lemma hour_cell_in_place_witness :
  ∃ h' d1' d2',
    hour_cell iso_parse 1%positive 2%positive train_test_heap = (h', Ok ())
    ∧ dom h' = dom train_test_heap
    ∧ h' !! 1%positive = Some d1' ∧ h' !! 2%positive = Some d2'
    ∧ (∀ l, l ≠ 1%positive → l ≠ 2%positive → h' !! l = train_test_heap !! l)
    ∧ cols d1' !! "datetime" = Some (DatetimeS [1293840000000000000])
    ∧ cols d1' !! "hour" = Some (IntS (hour_of <$> [1293840000000000000]))
    ∧ cols d2' !! "datetime" = Some (DatetimeS test_timestamps)
    ∧ cols d2' !! "hour" = Some (IntS (hour_of <$> test_timestamps))
    ∧ (∀ c, c ≠ "datetime" → c ≠ "hour" →
         cols d1' !! c = cols scenario_frame !! c
         ∧ cols d2' !! c = cols test_frame !! c)
    ∧ hour_cell iso_parse 1%positive 2%positive h' = (h', Ok ()).
Proof.
  apply (hour_cell_in_place iso_parse train_test_heap 1%positive 2%positive
           scenario_frame test_frame
           (ObjectS [Some "2011-01-01 00:00:00"]) (DatetimeS test_timestamps)
           [1293840000000000000] test_timestamps);
    [discriminate|reflexivity|reflexivity|prove_wf|prove_wf
    |by vm_compute|by vm_compute|by vm_compute|by vm_compute].
Defined.

Lemma engineer_cell_independent_witness :
  ∃ l1 out1 l2 out2,
    engineer_cell iso_parse iso_format Qmult 1%positive 2%positive train_test_heap
    = (<[l2:=out2]> (<[l1:=out1]> train_test_heap), Ok (l1, l2))
    ∧ l1 ≠ l2 ∧ train_test_heap !! l1 = None ∧ train_test_heap !! l2 = None
    ∧ feature_engineering iso_parse iso_format Qmult 1%positive train_test_heap
      = (<[l1:=out1]> train_test_heap, Ok l1)
    ∧ feature_engineering iso_parse iso_format Qmult 2%positive train_test_heap
      = (<[l1:=out2]> train_test_heap, Ok l1).
Proof.
  apply (engineer_cell_independent iso_parse iso_format Qmult train_test_heap
           1%positive 2%positive
           scenario_frame [1293840000000000000] [1] [1]
           (FloatS [Some (984 # 100)%Q]) (IntS [81]) (FloatS [Some 0%Q])
           test_frame test_timestamps [1; 1; 1] [1; 1; 1]
           (FloatS [Some (1066 # 100)%Q; Some (1066 # 100)%Q; Some (1066 # 100)%Q])
           (IntS [56; 56; 56])
           (FloatS [Some (260027 # 10000)%Q; Some 0%Q; Some 0%Q]));
    [reflexivity|reflexivity|scenario_valid|test_valid].
Defined.

Lemma exploration_then_engineering_witness :
  ∃ h1 h2 l1 l2 out1 out2 l1' l2',
    hour_cell iso_parse 1%positive 2%positive train_test_heap = (h1, Ok ())
    ∧ dayofweek_cell 1%positive 2%positive h1 = (h2, Ok ())
    ∧ engineer_cell iso_parse iso_format Qmult 1%positive 2%positive train_test_heap
      = (<[l2:=out2]> (<[l1:=out1]> train_test_heap), Ok (l1, l2))
    ∧ engineer_cell iso_parse iso_format Qmult 1%positive 2%positive h2
      = (<[l2':=out2]> (<[l1':=out1]> h2), Ok (l1', l2')).
Proof.
  apply (exploration_then_engineering iso_parse iso_format Qmult train_test_heap
           1%positive 2%positive
           scenario_frame [1293840000000000000] [1] [1]
           (FloatS [Some (984 # 100)%Q]) (IntS [81]) (FloatS [Some 0%Q])
           test_frame test_timestamps [1; 1; 1] [1; 1; 1]
           (FloatS [Some (1066 # 100)%Q; Some (1066 # 100)%Q; Some (1066 # 100)%Q])
           (IntS [56; 56; 56])
           (FloatS [Some (260027 # 10000)%Q; Some 0%Q; Some 0%Q]));
    [discriminate|reflexivity|reflexivity|scenario_valid|test_valid].
Defined.

Lemma drop_datetime_cell_once_witness :
  ∃ h' a' b' da' db',
    drop_datetime_cell 1%positive 2%positive train_test_heap = (h', Ok (a', b'))
    ∧ train_test_heap !! a' = None ∧ train_test_heap !! b' = None ∧ a' ≠ b'
    ∧ h' !! 1%positive = Some scenario_frame ∧ h' !! 2%positive = Some test_frame
    ∧ h' !! a' = Some da' ∧ h' !! b' = Some db'
    ∧ nrows da' = nrows scenario_frame ∧ nrows db' = nrows test_frame
    ∧ cols da' !! "datetime" = None ∧ cols db' !! "datetime" = None
    ∧ (∀ c, c ≠ "datetime" →
         cols da' !! c = cols scenario_frame !! c
         ∧ cols db' !! c = cols test_frame !! c)
    ∧ (∀ i, enriched_record da' i = enriched_record scenario_frame i
            ∧ enriched_record db' i = enriched_record test_frame i)
    ∧ drop_datetime_cell a' b' h' = (h', Raise (KeyError "datetime")).
Proof.
  apply (drop_datetime_cell_once train_test_heap 1%positive 2%positive
           scenario_frame test_frame
           (ObjectS [Some "2011-01-01 00:00:00"]) (DatetimeS test_timestamps));
    [reflexivity|reflexivity|by vm_compute|by vm_compute].
Defined.

Lemma submission_never_negative_witness :
  ∃ sub out cs,
    advanced_submission iso_format 1%positive
      (FloatS [Some (-52 # 10)%Q; None; Some (427 # 10)%Q]) (heap_of test_frame)
    = (<[sub:=out]> (heap_of test_frame), Ok sub)
    ∧ cols out !! "count" = Some (FloatS cs)
    ∧ length cs = length [Some (-52 # 10)%Q; None; Some (427 # 10)%Q]
    ∧ ∀ i p, [Some (-52 # 10)%Q; None; Some (427 # 10)%Q] !! i = Some p →
        ∃ c, cs !! i = Some c
             ∧ (c = None ↔ p = None)
             ∧ (∀ q, c = Some q → (0 <= q)%Q)
             ∧ (∀ q, p = Some q → (0 <= q)%Q → c = Some q)
             ∧ (∀ q, p = Some q → (q < 0)%Q → c = Some 0%Q).
Proof.
  apply (submission_never_negative iso_format (heap_of test_frame) 1%positive
           test_frame test_timestamps
           [Some (-52 # 10)%Q; None; Some (427 # 10)%Q]); reflexivity.
Defined.

Lemma submission_cell_no_side_effect_witness :
  heap_of no_temp_frame !! 1%positive = Some no_temp_frame
  ∧ (advanced_submission iso_format 1%positive (FloatS [Some 1%Q])
       (heap_of no_temp_frame)).1 !! 1%positive = Some no_temp_frame.
Proof.
  split; [reflexivity|].
  apply (proj1 (submission_cell_no_side_effect iso_format (heap_of no_temp_frame)
                  1%positive (FloatS [Some 1%Q]))).
  reflexivity.
Defined.
